(** * Ralph benchmark analyzer: a shallow embedding of [benchmark_analyzer.py]

    The script is a three-stage pipeline: [parse_metrics] reads a JSONL log,
    [calculate_stats] folds the decoded records into a summary and
    [generate_report] renders the summary as markdown.  The Python values the
    script manipulates are embedded as an inductive type, Python exceptions
    as an error monad, and the file system, standard output and wall clock as
    an explicit world threaded through a state monad. *)

From Stdlib Require Import ZArith Ascii String List Lia.
From Stdlib Require Import Floats.SpecFloat.
From stdpp Require Import base option list gmap strings pretty.

Set Warnings "-register-all".

Local Open Scope Z_scope.

(** ** Exceptions and the error monad *)

(** The exception classes the script can meet.  [JSONDecodeError] is the only
    one the script catches. *)
Inductive exn : Type :=
  | AttributeError
  | TypeError
  | ValueError
  | OverflowError
  | ZeroDivisionError
  | RecursionError
  | UnicodeEncodeError
  | UnicodeDecodeError
  | FileNotFoundError
  | NotADirectoryError
  | IsADirectoryError
  | PermissionError
  | OtherError (name : string).

Inductive result (A : Type) : Type :=
  | Ok (a : A)
  | Raise (e : exn).
Arguments Ok {A} a.
Arguments Raise {A} e.

Definition bind {A B} (r : result A) (k : A -> result B) : result B :=
  match r with
  | Ok a => k a
  | Raise e => Raise e
  end.

Declare Scope py_scope.
Delimit Scope py_scope with py.
Notation "x <- r ;; k" := (bind r (fun x => k))
  (at level 100, r at next level, right associativity) : py_scope.
Local Open Scope py_scope.

(** ** Python values

    What [json.loads] can return: [None], booleans, unbounded integers,
    binary64 floats (including [nan] and the infinities, which the decoder
    accepts), strings, lists, and dictionaries with string keys kept in
    insertion order.  A [str] is represented by its UTF-8 bytes. *)
Inductive value : Type :=
  | VNone
  | VBool (b : bool)
  | VInt (z : Z)
  | VFloat (f : spec_float)
  | VStr (s : string)
  | VList (l : list value)
  | VDict (d : list (string * value)).

(** The result of an arithmetic operation: an [int] or a [float]. *)
Inductive num : Type :=
  | NInt (z : Z)
  | NFloat (f : spec_float).

Definition value_of_num (n : num) : value :=
  match n with
  | NInt z => VInt z
  | NFloat f => VFloat f
  end.

(** [bool] is a subclass of [int]: [True] counts as 1 in arithmetic. *)
Definition as_num (v : value) : option num :=
  match v with
  | VBool b => Some (NInt (if b then 1 else 0))
  | VInt z => Some (NInt z)
  | VFloat f => Some (NFloat f)
  | _ => None
  end.

(** ** binary64 arithmetic *)

Definition prec : Z := 53.
Definition emax : Z := 1024.

(** [m * 2^e] rounded to the nearest binary64 value, ties to even. *)
Definition float_lit (m e : Z) : spec_float := binary_normalize prec emax m e false.

Definition is_infinite (f : spec_float) : bool :=
  match f with
  | S754_infinity _ => true
  | _ => false
  end.

(** [float(z)]: correctly rounded; a result beyond the largest finite float
    is an [OverflowError] ("int too large to convert to float"). *)
Definition float_of_int (z : Z) : result spec_float :=
  let f := float_lit z 0 in
  if is_infinite f then Raise OverflowError else Ok f.

(** [a / b] on two [int]s: the exact quotient correctly rounded, with the sign
    of a zero result taken from the operands. *)
Definition int_truediv (a b : Z) : result spec_float :=
  if b =? 0 then Raise ZeroDivisionError
  else
    let negate := xorb (a <? 0) (b <? 0) in
    if a =? 0 then Ok (S754_zero negate)
    else
      let '(q, e, l) := SFdiv_core_binary prec emax (Z.abs a) 0 (Z.abs b) 0 in
      let f := binary_round_aux prec emax negate q e l in
      if is_infinite f then Raise OverflowError else Ok f.

Definition is_zero (f : spec_float) : bool :=
  match f with
  | S754_zero _ => true
  | _ => false
  end.

(** [x + y] on numbers: an [int] operand is converted when the other is a
    [float]. *)
Definition num_add (x y : num) : result num :=
  match x, y with
  | NInt a, NInt b => Ok (NInt (a + b))
  | NInt a, NFloat g => f <- float_of_int a;; Ok (NFloat (SFadd prec emax f g))
  | NFloat f, NInt b => g <- float_of_int b;; Ok (NFloat (SFadd prec emax f g))
  | NFloat f, NFloat g => Ok (NFloat (SFadd prec emax f g))
  end.

Definition float_truediv (f g : spec_float) : result spec_float :=
  if is_zero g then Raise ZeroDivisionError else Ok (SFdiv prec emax f g).

(** [x / y] on numbers (true division, always a [float]). *)
Definition num_truediv (x y : num) : result num :=
  match x, y with
  | NInt a, NInt b => q <- int_truediv a b;; Ok (NFloat q)
  | NInt a, NFloat g => f <- float_of_int a;; q <- float_truediv f g;; Ok (NFloat q)
  | NFloat f, NInt b => g <- float_of_int b;; q <- float_truediv f g;; Ok (NFloat q)
  | NFloat f, NFloat g => q <- float_truediv f g;; Ok (NFloat q)
  end.

(** [x + y] on arbitrary values as [sum] meets them: the left operand is the
    running total, always a number. *)
Definition py_add (acc : num) (v : value) : result num :=
  match as_num v with
  | Some n => num_add acc n
  | None => Raise TypeError
  end.


(** ** Comparison and equality of values *)

(** The exact value of a finite float as a signed mantissa. *)
Definition signed (s : bool) (m : positive) : Z := if s then Z.neg m else Z.pos m.

(** An [int] against a [float], compared exactly (no conversion). *)
Definition int_float_compare (a : Z) (g : spec_float) : option comparison :=
  match g with
  | S754_nan => None
  | S754_infinity s => Some (if s then Gt else Lt)
  | S754_zero _ => Some (a ?= 0)
  | S754_finite s m e =>
      if 0 <=? e then Some (a ?= signed s m * 2 ^ e)
      else Some (a * 2 ^ (- e) ?= signed s m)
  end.

Definition num_compare (x y : num) : option comparison :=
  match x, y with
  | NInt a, NInt b => Some (a ?= b)
  | NInt a, NFloat g => int_float_compare a g
  | NFloat f, NInt b => option_map CompOpp (int_float_compare b f)
  | NFloat f, NFloat g => SFcompare f g
  end.

Definition is_nan (f : spec_float) : bool :=
  match f with
  | S754_nan => true
  | _ => false
  end.

(** Identity-or-equality on numbers, the test containers apply to their
    elements and keys.  Every [nan] the decoder produces is the one module
    constant of [json.decoder], so two decoded [nan] are the same object. *)
Definition num_same (x y : num) : bool :=
  match num_compare x y with
  | Some Eq => true
  | Some _ => false
  | None =>
      match x, y with
      | NFloat f, NFloat g => is_nan f && is_nan g
      | _, _ => false
      end
  end.

Fixpoint assoc (k : string) (d : list (string * value)) : option value :=
  match d with
  | [] => None
  | (k', v) :: d' => if String.eqb k' k then Some v else assoc k d'
  end.

(** Identity-or-equality on decoded values ([==] preceded by the identity
    shortcut): numbers by value across [bool], [int] and [float], lists
    pointwise, dictionaries as unordered maps. *)
Fixpoint py_same (a b : value) {struct a} : bool :=
  match a, b with
  | VNone, VNone => true
  | VStr s, VStr t => String.eqb s t
  | VList xs, VList ys =>
      (fix go (xs ys : list value) {struct xs} : bool :=
         match xs, ys with
         | [], [] => true
         | x :: xs', y :: ys' => py_same x y && go xs' ys'
         | _, _ => false
         end) xs ys
  | VDict d, VDict d' =>
      Nat.eqb (length d) (length d') &&
      (fix go (d : list (string * value)) {struct d} : bool :=
         match d with
         | [] => true
         | (k, v) :: r =>
             match assoc k d' with
             | Some v' => py_same v v'
             | None => false
             end && go r
         end) d
  | _, _ =>
      match as_num a, as_num b with
      | Some x, Some y => num_same x y
      | _, _ => false
      end
  end.

Definition string_gt (s t : string) : bool :=
  match String.compare s t with
  | Gt => true
  | _ => false
  end.

(** [a > b].  Numbers compare by value and a comparison with [nan] is false;
    strings compare by code point, which is the byte order of their UTF-8
    form; lists compare at their first differing index, or by length; any
    other pairing is a [TypeError]. *)
Fixpoint py_gt (a b : value) {struct a} : result bool :=
  match a, b with
  | VStr s, VStr t => Ok (string_gt s t)
  | VList xs, VList ys =>
      (fix go (xs ys : list value) {struct xs} : result bool :=
         match xs, ys with
         | x :: xs', y :: ys' => if py_same x y then go xs' ys' else py_gt x y
         | _ :: _, [] => Ok true
         | [], _ => Ok false
         end) xs ys
  | _, _ =>
      match as_num a, as_num b with
      | Some x, Some y =>
          Ok match num_compare x y with
             | Some Gt => true
             | _ => false
             end
      | _, _ => Raise TypeError
      end
  end.

(** ** Dictionaries *)

(** [m.get(k, default)].  Only a [dict] has the method. *)
Definition py_get (m : value) (k : string) (default : value) : result value :=
  match m with
  | VDict d => Ok (match assoc k d with Some v => v | None => default end)
  | _ => Raise AttributeError
  end.

Definition hashable (v : value) : bool :=
  match v with
  | VList _ | VDict _ => false
  | _ => true
  end.

(** A counting dictionary, in insertion order. *)
Definition hist : Type := list (value * Z).

Fixpoint hist_get (h : hist) (k : value) (default : Z) : Z :=
  match h with
  | [] => default
  | (k', c) :: h' => if py_same k' k then c else hist_get h' k default
  end.

(** [h[k] = c]: an existing entry keeps its key and position. *)
Fixpoint hist_set (h : hist) (k : value) (c : Z) : hist :=
  match h with
  | [] => [(k, c)]
  | (k', c') :: h' => if py_same k' k then (k', c) :: h' else (k', c') :: hist_set h' k c
  end.

(** [h[k] = h.get(k, 0) + 1]; hashing the key comes first. *)
Definition hist_incr (h : hist) (k : value) : result hist :=
  if hashable k then Ok (hist_set h k (hist_get h k 0 + 1)) else Raise TypeError.

(** ** Built-ins over a generator expression [g(m) for m in metrics] *)

(** [sum]: the items are added to the running total from left to right, each
    item being produced just before it is added.  (CPython 3.12 and later
    carry a compensation term along a run of floats; it is zero whenever the
    partial sums are exact, and it changes nothing to what can be raised.) *)
Fixpoint sum_from (g : value -> result value) (ms : list value) (acc : num) : result num :=
  match ms with
  | [] => Ok acc
  | m :: ms' => v <- g m;; acc' <- py_add acc v;; sum_from g ms' acc'
  end.

Definition py_sum (g : value -> result value) (ms : list value) : result num :=
  sum_from g ms (NInt 0).

(** [max]: the first item is kept without any comparison, a later item
    replaces the running maximum when it is greater. *)
Fixpoint max_from (g : value -> result value) (ms : list value) (cur : value) : result value :=
  match ms with
  | [] => Ok cur
  | m :: ms' => v <- g m;; b <- py_gt v cur;; max_from g ms' (if b then v else cur)
  end.

Definition py_max (g : value -> result value) (ms : list value) : result value :=
  match ms with
  | [] => Raise ValueError
  | m :: ms' => v <- g m;; max_from g ms' v
  end.

(** ** The aggregator *)

(** The dictionary [calculate_stats] returns, one field per key. *)
Record summary : Type := {
  total_iterations : Z;
  total_latency : num;
  total_tokens : num;
  avg_latency : num;
  avg_tokens : num;
  max_lazy : value;
  tools : hist;
  models : hist
}.

(** The counting loop of [calculate_stats]. *)
Fixpoint count_loop (ms : list value) (tools models : hist) : result (hist * hist) :=
  match ms with
  | [] => Ok (tools, models)
  | m :: ms' =>
      t <- py_get m "tool" (VStr "unknown");;
      tools' <- hist_incr tools t;;
      mdl <- py_get m "model" (VStr "unknown");;
      models' <- hist_incr models mdl;;
      count_loop ms' tools' models'
  end.

Definition calculate_stats (metrics : list value) : result (option summary) :=
  match metrics with
  | [] => Ok None
  | _ :: _ =>
      let total_iterations := Z.of_nat (length metrics) in
      total_latency <- py_sum (fun m => py_get m "latency" (VInt 0)) metrics;;
      total_tokens <- py_sum (fun m => py_get m "tokens" (VInt 0)) metrics;;
      avg_latency <-
        (if 0 <? total_iterations
         then num_truediv total_latency (NInt total_iterations)
         else Ok (NInt 0));;
      avg_tokens <-
        (if 0 <? total_iterations
         then num_truediv total_tokens (NInt total_iterations)
         else Ok (NInt 0));;
      max_lazy <- py_max (fun m => py_get m "lazy_streak" (VInt 0)) metrics;;
      counts <- count_loop metrics [] [];;
      Ok (Some {| total_iterations := total_iterations;
                  total_latency := total_latency;
                  total_tokens := total_tokens;
                  avg_latency := avg_latency;
                  avg_tokens := avg_tokens;
                  max_lazy := max_lazy;
                  tools := fst counts;
                  models := snd counts |})
  end.

(** ** Text helpers *)

Definition nl : string := String "010" EmptyString.

(** [sep.join(items)]. *)
Fixpoint join (sep : string) (items : list string) : string :=
  match items with
  | [] => EmptyString
  | [x] => x
  | x :: rest => x +:+ sep +:+ join sep rest
  end.

(** The lines a text-mode file yields when iterated, with universal newlines:
    each of LF, CR LF and CR ends a line and is read as LF. *)
Fixpoint readlines (s : string) : list string :=
  match s with
  | EmptyString => []
  | String c s' =>
      if Ascii.eqb c "010" then nl :: readlines s'
      else if Ascii.eqb c "013" then
        match s' with
        | String c' s'' => if Ascii.eqb c' "010" then nl :: readlines s'' else nl :: readlines s'
        | EmptyString => [nl]
        end
      else
        match readlines s' with
        | [] => [String c EmptyString]
        | l :: ls => String c l :: ls
        end
  end.

(** The UTF-8 forms of the characters [str.strip] removes: U+0009..U+000D,
    U+001C..U+0020, U+0085, U+00A0, U+1680, U+2000..U+200A, U+2028, U+2029,
    U+202F, U+205F and U+3000. *)
Definition whitespace : list (list N) :=
  ([[9]; [10]; [11]; [12]; [13]; [28]; [29]; [30]; [31]; [32];
    [194; 133]; [194; 160]; [225; 154; 128];
    [226; 128; 128]; [226; 128; 129]; [226; 128; 130]; [226; 128; 131];
    [226; 128; 132]; [226; 128; 133]; [226; 128; 134]; [226; 128; 135];
    [226; 128; 136]; [226; 128; 137]; [226; 128; 138];
    [226; 128; 168]; [226; 128; 169]; [226; 128; 175]; [226; 129; 159];
    [227; 128; 128]])%N.

Fixpoint starts_with (p l : list N) : bool :=
  match p, l with
  | [], _ => true
  | x :: p', y :: l' => N.eqb x y && starts_with p' l'
  | _ :: _, [] => false
  end.

(** Drops every leading occurrence of one of [pats]; [skip] counts the bytes
    of the current occurrence still to drop. *)
Fixpoint drop_leading (pats : list (list N)) (skip : nat) (l : list N) : list N :=
  match l with
  | [] => []
  | _ :: l' =>
      match skip with
      | S k => drop_leading pats k l'
      | O =>
          match List.find (fun p => starts_with p l) pats with
          | Some p => drop_leading pats (Nat.pred (length p)) l'
          | None => l
          end
      end
  end.

Definition bytes_of (s : string) : list N := List.map N_of_ascii (list_ascii_of_string s).
Definition string_of_bytes (l : list N) : string := string_of_list_ascii (List.map ascii_of_N l).

(** [s.strip()]. *)
Definition strip (s : string) : string :=
  let l := drop_leading whitespace 0 (bytes_of s) in
  let r := drop_leading (List.map (@List.rev N) whitespace) 0 (List.rev' l) in
  string_of_bytes (List.rev' r).

Definition is_empty_string (s : string) : bool :=
  match s with
  | EmptyString => true
  | _ => false
  end.

(** ** The world: file system, standard output, wall clock *)

(** An entry of the file system: a regular file holding text, a regular file
    whose bytes are no text in the encoding of the platform, or a
    directory. *)
Inductive node : Type :=
  | File (content : string)
  | Binary
  | Dir.

(** What a path is looked up for: [os.path.exists], [open(p, 'r')] or
    [open(p, 'w')]. *)
Inductive access : Type :=
  | Stat
  | Read
  | Write.

Record datetime : Type := {
  year : nat; month : nat; day : nat; hour : nat; minute : nat; second : nat
}.

(** [fs] maps the name of an entry to what it holds; an entry has one name,
    however many paths lead to it.  [locate a p] is the answer of the
    operating system when the path [p] is looked up for the access [a]: the
    name of the entry that [p] designates (for [Write], also of the entry it
    would create), or the [OSError] it raises: a directory on the way is
    missing or is no directory, the access is not permitted, the path is
    empty.  The script creates and removes no directory and no link, so the
    answer is the same throughout a run.  The streams encode as UTF-8 and the
    device itself does not fail. *)
Record world : Type := {
  fs : gmap string node;
  locate : access -> string -> result string;
  stdout : list string;
  clock : datetime
}.

(** Programs with effects: a state monad over the world, with exceptions.
    The world reached when an exception is raised is kept. *)
Definition IO (A : Type) : Type := world -> result A * world.

Definition io_ret {A} (a : A) : IO A := fun w => (Ok a, w).

Definition io_bind {A B} (c : IO A) (k : A -> IO B) : IO B :=
  fun w =>
    match c w with
    | (Ok a, w') => k a w'
    | (Raise e, w') => (Raise e, w')
    end.

Definition io_lift {A} (r : result A) : IO A := fun w => (r, w).

Notation "x <~ c ;; k" := (io_bind c (fun x => k))
  (at level 100, c at next level, right associativity) : py_scope.

(** The [str] holds a surrogate code point, the one thing a UTF-8 stream
    refuses to encode: in the byte form used here, the byte 237 followed by a
    byte from 160 to 191. *)
Fixpoint has_surrogate (s : string) : bool :=
  match s with
  | String c s' =>
      match s' with
      | String d _ =>
          (N_of_ascii c =? 237)%N && (160 <=? N_of_ascii d)%N && (N_of_ascii d <=? 191)%N
          || has_surrogate s'
      | EmptyString => false
      end
  | EmptyString => false
  end.

Definition encodable (s : string) : bool := negb (has_surrogate s).

(** Something exists at the path [p]: the look-up succeeds and the entry is
    there, whatever its kind. *)
Definition path_exists (w : world) (p : string) : bool :=
  match locate w Stat p with
  | Ok name => bool_decide (is_Some (fs w !! name))
  | Raise _ => false
  end.

(** [os.path.exists]. *)
Definition os_path_exists (p : string) : IO bool :=
  fun w => (Ok (path_exists w p), w).

(** The world after [s] is printed: one entry of [stdout] per call. *)
Definition printed (s : string) (w : world) : world :=
  {| fs := fs w; locate := locate w; stdout := stdout w ++ [s]; clock := clock w |}.

(** The world after the entry [name] is created or replaced as a file
    holding [text]. *)
Definition written (name text : string) (w : world) : world :=
  {| fs := <[name := File text]> (fs w); locate := locate w;
     stdout := stdout w; clock := clock w |}.

(** [print(s)]: the text is encoded before anything is written. *)
Definition print (s : string) : IO unit :=
  fun w => if encodable s then (Ok tt, printed s w) else (Raise UnicodeEncodeError, w).

(** [with open(p, 'r') as f: for line in f]: the lines of a text file. *)
Definition open_read (p : string) : IO (list string) :=
  fun w =>
    match locate w Read p with
    | Ok name =>
        match fs w !! name with
        | Some (File content) => (Ok (readlines content), w)
        | Some Binary => (Raise UnicodeDecodeError, w)
        | Some Dir => (Raise IsADirectoryError, w)
        | None => (Raise FileNotFoundError, w)
        end
    | Raise e => (Raise e, w)
    end.

(** [open(p, 'w')]: the file is created, or emptied when it exists; the
    result is the name of the entry. *)
Definition open_write (p : string) : IO string :=
  fun w =>
    match locate w Write p with
    | Ok name =>
        match fs w !! name with
        | Some Dir => (Raise IsADirectoryError, w)
        | _ => (Ok name, written name EmptyString w)
        end
    | Raise e => (Raise e, w)
    end.

(** [f.write(text)] on the file just opened: the text is encoded first, and
    the file stays empty when that fails. *)
Definition file_write (name text : string) : IO unit :=
  fun w =>
    if encodable text then (Ok tt, written name text w) else (Raise UnicodeEncodeError, w).

(** [datetime.now()]. *)
Definition datetime_now : IO datetime := fun w => (Ok (clock w), w).

(** ** Formatting *)

(** [s] padded on the left with zeros to [width] characters. *)
Definition zero_pad (width : nat) (s : string) : string :=
  string_of_list_ascii (List.repeat "0"%char (width - String.length s)) +:+ s.

(** [d.strftime('%Y-%m-%d %H:%M:%S')]. *)
Definition strftime (d : datetime) : string :=
  zero_pad 4 (pretty (year d)) +:+ "-" +:+ zero_pad 2 (pretty (month d)) +:+ "-" +:+
  zero_pad 2 (pretty (day d)) +:+ " " +:+ zero_pad 2 (pretty (hour d)) +:+ ":" +:+
  zero_pad 2 (pretty (minute d)) +:+ ":" +:+ zero_pad 2 (pretty (second d)).

(** [n / d] rounded to the nearest integer, ties to even ([0 <= n], [0 < d]). *)
Definition round_half_even_div (n d : Z) : Z :=
  let q := n / d in
  match 2 * (n mod d) ?= d with
  | Lt => q
  | Gt => q + 1
  | Eq => if Z.even q then q else q + 1
  end.

(** The digits of [n / 10^digits] in fixed notation. *)
Definition fixed_point (digits : nat) (n : Z) : string :=
  let p := 10 ^ Z.of_nat digits in
  pretty (n / p) +:+
  match digits with
  | O => EmptyString
  | S _ => "." +:+ zero_pad digits (pretty (n mod p))
  end.

(** [format(f, '.<digits>f')]: the exact value of the float, correctly
    rounded to [digits] decimals. *)
Definition format_float_f (digits : nat) (f : spec_float) : string :=
  match f with
  | S754_nan => "nan"
  | S754_infinity s => if s then "-inf" else "inf"
  | S754_zero s => (if s then "-" else EmptyString) +:+ fixed_point digits 0
  | S754_finite s m e =>
      let scaled := Z.pos m * 10 ^ Z.of_nat digits in
      let n := if 0 <=? e then scaled * 2 ^ e else round_half_even_div scaled (2 ^ (- e)) in
      (if s then "-" else EmptyString) +:+ fixed_point digits n
  end.

(** [format(n, '.<digits>f')]: an [int] is converted to [float] first. *)
Definition format_f (digits : nat) (n : num) : result string :=
  match n with
  | NInt z => f <- float_of_int z;; Ok (format_float_f digits f)
  | NFloat f => Ok (format_float_f digits f)
  end.

(** ** The script

    Three library routines are taken as parameters: the JSON decoder, and the
    [repr] of a [float] (shortest digits that round-trip) and of a [str]
    (quoting and escaping). *)

(** What [json.loads(line)] does: return a value, raise [JSONDecodeError], or
    raise something else (a [RecursionError] on deeply nested input). *)
Inductive decode_result : Type :=
  | Decoded (v : value)
  | JSONDecodeError
  | DecodeRaises (e : exn).

Section Script.

Variable json_loads : string -> decode_result.
Variable float_repr : spec_float -> string.
Variable str_repr : string -> string.

(** [repr(v)]. *)
Fixpoint py_repr (v : value) : string :=
  match v with
  | VNone => "None"
  | VBool b => if b then "True" else "False"
  | VInt z => pretty z
  | VFloat f => float_repr f
  | VStr s => str_repr s
  | VList l => "[" +:+ join ", " (List.map py_repr l) +:+ "]"
  | VDict d =>
      "{" +:+ join ", " (List.map (fun kv => str_repr (fst kv) +:+ ": " +:+ py_repr (snd kv)) d) +:+ "}"
  end.

(** [str(v)], what a replacement field without format spec inserts. *)
Definition py_str (v : value) : string :=
  match v with
  | VStr s => s
  | _ => py_repr v
  end.

(** *** Parser *)

(** The body of [for line in f], started with the records collected so far. *)
Fixpoint parse_lines (lines : list string) (metrics : list value) : result (list value) :=
  match lines with
  | [] => Ok metrics
  | line :: rest =>
      let line := strip line in
      if is_empty_string line then parse_lines rest metrics
      else
        match json_loads line with
        | Decoded v => parse_lines rest (metrics ++ [v])
        | JSONDecodeError => parse_lines rest metrics
        | DecodeRaises e => Raise e
        end
  end.

Definition parse_metrics (file_path : string) : IO (list value) :=
  let metrics := [] in
  found <~ os_path_exists file_path;;
  if negb found then
    _ <~ print ("Error: Metrics file not found at " +:+ file_path);;
    io_ret metrics
  else
    lines <~ open_read file_path;;
    io_lift (parse_lines lines metrics).

(** *** Reporter *)

(** The lines appended for one histogram. *)
Definition hist_lines (h : hist) : list string :=
  List.map (fun kc => "- " +:+ py_str (fst kc) +:+ ": " +:+ pretty (snd kc) +:+ " iterations") h.

(** The list [report], built from the summary and the current time. *)
Definition render_report (stats : summary) (now : datetime) : result (list string) :=
  let report := ["# Ralph Performance Benchmark Report"] in
  let report := report ++ [nl +:+ "Generated on: " +:+ strftime now] in
  let report := report ++ [nl +:+ "## Summary Metrics"] in
  let report := report ++ ["- **Total Iterations:** " +:+ pretty (total_iterations stats)] in
  s <- format_f 2 (total_latency stats);;
  let report := report ++ ["- **Total Execution Time:** " +:+ s +:+ "s"] in
  let report := report ++ ["- **Total Tokens (Est):** " +:+ py_str (value_of_num (total_tokens stats))] in
  s <- format_f 2 (avg_latency stats);;
  let report := report ++ ["- **Average Latency/Iteration:** " +:+ s +:+ "s"] in
  s <- format_f 1 (avg_tokens stats);;
  let report := report ++ ["- **Average Tokens/Iteration:** " +:+ s] in
  let report := report ++ ["- **Max Lazy Streak:** " +:+ py_str (max_lazy stats)] in
  let report := report ++ [nl +:+ "## Utilization"] in
  let report := report ++ [nl +:+ "### Tools Used"] in
  let report := report ++ hist_lines (tools stats) in
  let report := report ++ [nl +:+ "### Models Used"] in
  let report := report ++ hist_lines (models stats) in
  Ok report.

(** A summary is a dictionary of eight keys, hence truthy; [None] and the
    empty string are falsy. *)
Definition generate_report (stats : option summary) (output_file : option string) : IO unit :=
  match stats with
  | None => print "No statistics to report."
  | Some stats =>
      now <~ datetime_now;;
      report <~ io_lift (render_report stats now);;
      let report_text := join nl report in
      match output_file with
      | Some (String c p as path) =>
          f <~ open_write path;;
          _ <~ file_write f report_text;;
          print ("Report generated at " +:+ path)
      | _ => print report_text
      end
  end.

(** *** Command line *)

Definition default_input : string := ".ralph/state/metrics.json".

(** [main], from the values of [--input] and [--output] when given. *)
Definition main (arg_input arg_output : option string) : IO unit :=
  let input := match arg_input with Some p => p | None => default_input end in
  metrics <~ parse_metrics input;;
  stats <~ io_lift (calculate_stats metrics);;
  generate_report stats arg_output.

End Script.

(** ** Vocabulary of the properties *)

(** The sum of the counts a histogram stores. *)
Definition hist_total (h : hist) : Z := List.fold_right (fun kc acc => snd kc + acc) 0 h.

Definition is_mapping (v : value) : bool :=
  match v with
  | VDict _ => true
  | _ => false
  end.

Definition is_number (v : value) : bool :=
  match as_num v with
  | Some _ => true
  | None => false
  end.

(** A number whose conversion to [float] cannot overflow, with room for
    [2^63] of them to be added up first. *)
Definition moderate_number (v : value) : bool :=
  match as_num v with
  | Some (NInt z) => Z.abs z <? 2 ^ 960
  | Some (NFloat _) => true
  | None => false
  end.

(** The field is absent, or holds a value satisfying [P]. *)
Definition field_ok (P : value -> bool) (d : list (string * value)) (k : string) : bool :=
  match assoc k d with
  | Some v => P v
  | None => true
  end.

(** A mapping whose recognised fields, when present, have a type the
    aggregator can work with: numbers for the three numeric fields, hashable
    values for the two categorical ones. *)
Definition well_typed (m : value) : bool :=
  match m with
  | VDict d =>
      field_ok moderate_number d "latency" && field_ok moderate_number d "tokens" &&
      field_ok is_number d "lazy_streak" &&
      field_ok hashable d "tool" && field_ok hashable d "model"
  | _ => false
  end.

(** The two records of the worked example. *)
Definition record_a : value :=
  VDict [("latency", VFloat (float_lit 1 0)); ("tokens", VInt 10);
         ("tool", VStr "a"); ("model", VStr "x")].

Definition record_b : value :=
  VDict [("latency", VFloat (float_lit 3 0)); ("tokens", VInt 20);
         ("tool", VStr "b"); ("model", VStr "x")].

Definition summary_ab : summary :=
  {| total_iterations := 2;
     total_latency := NFloat (float_lit 4 0);
     total_tokens := NInt 30;
     avg_latency := NFloat (float_lit 2 0);
     avg_tokens := NFloat (float_lit 15 0);
     max_lazy := VInt 0;
     tools := [(VStr "a", 1); (VStr "b", 1)];
     models := [(VStr "x", 2)] |}.

(** The running total of [sum] after [c] moderate numbers. *)
Definition within (c : Z) (acc : num) : Prop :=
  match acc with
  | NInt a => Z.abs a <= c * 2 ^ 960
  | NFloat _ => True
  end.

(** What the parser keeps of one line, in the words of the specification:
    nothing for a blank or undecodable line, the decoded value otherwise. *)
Definition decodable (json_loads : string -> decode_result) (line : string) : option value :=
  let s := strip line in
  if is_empty_string s then None
  else match json_loads s with
       | Decoded v => Some v
       | _ => None
       end.

Definition is_decodable (json_loads : string -> decode_result) (line : string) : bool :=
  match decodable json_loads line with
  | Some _ => true
  | None => false
  end.

(** The line makes the decoder raise something other than
    [JSONDecodeError]. *)
Definition decoder_crashes (json_loads : string -> decode_result) (line : string) : bool :=
  negb (is_empty_string (strip line)) &&
  match json_loads (strip line) with
  | DecodeRaises _ => true
  | _ => false
  end.

(** The timestamp entry of the report. *)
Definition timestamp_entry (now : datetime) : string :=
  nl +:+ "Generated on: " +:+ strftime now.

(** The text the parser reads at the path [p]: something exists there, and
    opening it for reading gives a text file. *)
Definition text_at (w : world) (p : string) : option string :=
  if path_exists w p then
    match locate w Read p with
    | Ok name =>
        match fs w !! name with
        | Some (File content) => Some content
        | _ => None
        end
    | Raise _ => None
    end
  else None.

(** The output step of the reporter on its own: the document goes to the
    output path when one is given and is not empty, to standard output
    otherwise. *)
Definition emit_document (output_file : option string) (report_text : string) : IO unit :=
  match output_file with
  | Some (String c p as path) =>
      f <~ open_write path;;
      _ <~ file_write f report_text;;
      print ("Report generated at " +:+ path)
  | _ => print report_text
  end.

(** The path [main] reads. *)
Definition input_path (arg_input : option string) : string :=
  match arg_input with
  | Some p => p
  | None => default_input
  end.

Definition has_newline (s : string) : bool :=
  List.existsb (fun c => Ascii.eqb c "010") (list_ascii_of_string s).

(** Every character of the string is an ASCII character. *)
Definition plain_ascii (s : string) : bool :=
  List.forallb (fun c => (N_of_ascii c <? 128)%N) (list_ascii_of_string s).

(** A decoder that agrees with [json.loads] on the three documents of the
    examples below and rejects every other line. *)
Definition sample_loads (s : string) : decode_result :=
  if String.eqb s "{}" then Decoded (VDict [])
  else if String.eqb s "5" then Decoded (VInt 5)
  else if String.eqb s "[]" then Decoded (VList [])
  else JSONDecodeError.

(** A line of 100000 opening brackets, nested deeper than any decoder
    follows, and a decoder that raises RecursionError on it as [json.loads]
    does. *)
Definition deep_line : string := Pos.iter (String "[") EmptyString 100000.

Definition limited_loads (s : string) : decode_result :=
  if String.eqb s deep_line then DecodeRaises RecursionError else sample_loads s.

Definition sample_repr_float (f : spec_float) : string := format_float_f 1 f.
Definition sample_repr_str (s : string) : string := "'" +:+ s +:+ "'".

Definition sample_clock : datetime :=
  {| year := 2024; month := 5; day := 17; hour := 9; minute := 30; second := 0 |}.

(** The part of a path before its last slash, when it has one. *)
Fixpoint parent_of (p : string) : option string :=
  match p with
  | EmptyString => None
  | String c p' =>
      match parent_of p' with
      | Some d => Some (String c d)
      | None => if Ascii.eqb c "/" then Some EmptyString else None
      end
  end.

(** Look-up in a working directory of which every entry may be read and
    written and whose only sub-directory is "reports": a leading "./" is
    dropped; the empty path, and a path through another directory, are not
    found. *)
Definition sample_locate (a : access) (p : string) : result string :=
  let q := match p with
           | String "." (String "/" r) => r
           | _ => p
           end in
  if is_empty_string q then Raise FileNotFoundError
  else match parent_of q with
       | None => Ok q
       | Some d => if String.eqb d "reports" then Ok q else Raise FileNotFoundError
       end.

(** A world with a log of one malformed line then one valid line, a log
    holding a bare number, and a directory. *)
Definition sample_world : world :=
  {| fs := {[ "metrics.json" := File ("not json" +:+ nl +:+ "{}" +:+ nl);
              "number.json" := File ("5" +:+ nl);
              "reports" := Dir ]};
     locate := sample_locate;
     stdout := [];
     clock := sample_clock |}.

(** The same world, later. *)
Definition later_world : world :=
  {| fs := fs sample_world;
     locate := locate sample_world;
     stdout := stdout sample_world;
     clock := {| year := 2025; month := 1; day := 2; hour := 3; minute := 4; second := 5 |} |}.

(** A world whose log holds the deeply nested line. *)
Definition deep_world : world :=
  {| fs := {[ "deep.json" := File (deep_line +:+ nl) ]};
     locate := sample_locate;
     stdout := [];
     clock := sample_clock |}.

(** The report entries of the worked example at the sample time. *)
Definition report_ab : list string :=
  match render_report sample_repr_float sample_repr_str summary_ab sample_clock with
  | Ok report => report
  | Raise _ => []
  end.



(** ** Vocabulary of the further properties *)

(** The integer a record contributes for the field [k]: the stored [int], 0
    when the field is absent. *)
Definition int_field (k : string) (m : value) : Z :=
  match m with
  | VDict d =>
      match assoc k d with
      | Some (VInt z) => z
      | _ => 0
      end
  | _ => 0
  end.

(** The record is a mapping whose field [k] is absent or an [int]. *)
Definition int_field_ok (k : string) (m : value) : bool :=
  match m with
  | VDict d =>
      match assoc k d with
      | Some (VInt _) => true
      | Some _ => false
      | None => true
      end
  | _ => false
  end.

Definition sum_Z (l : list Z) : Z := List.fold_right Z.add 0 l.

(** The name a record is counted under for the field [k]: the stored [str],
    "unknown" when the field is absent. *)
Definition name_field (k : string) (m : value) : string :=
  match m with
  | VDict d =>
      match assoc k d with
      | Some (VStr s) => s
      | _ => "unknown"
      end
  | _ => "unknown"
  end.

(** The record is a mapping whose field [k] is absent or a [str]. *)
Definition name_field_ok (k : string) (m : value) : bool :=
  match m with
  | VDict d =>
      match assoc k d with
      | Some (VStr _) => true
      | Some _ => false
      | None => true
      end
  | _ => false
  end.

(** How many times [name] occurs in [names]. *)
Definition occurrences (name : string) (names : list string) : Z :=
  Z.of_nat (length (List.filter (String.eqb name) names)).

(** The distinct elements of [names], each at the place of its first
    occurrence. *)
Definition first_seen_from (seen names : list string) : list string :=
  List.fold_left
    (fun acc x => if List.existsb (String.eqb x) acc then acc else acc ++ [x])
    names seen.

Definition first_seen (names : list string) : list string := first_seen_from [] names.

(** Counting the names of the field [k] into the histogram [h], one record
    after the other. *)
Definition count_names (k : string) (ms : list value) (h : hist) : hist :=
  List.fold_left
    (fun h m => hist_set h (VStr (name_field k m)) (hist_get h (VStr (name_field k m)) 0 + 1))
    ms h.

(** A record with the documented field types, restricted to integers for the
    counters and strings for the categories. *)
Definition plain_record (m : value) : bool :=
  int_field_ok "tokens" m && int_field_ok "lazy_streak" m &&
  name_field_ok "tool" m && name_field_ok "model" m.

(** The summary of the worked example with its records swapped. *)
Definition summary_ba : summary :=
  {| total_iterations := 2;
     total_latency := NFloat (float_lit 4 0);
     total_tokens := NInt 30;
     avg_latency := NFloat (float_lit 2 0);
     avg_tokens := NFloat (float_lit 15 0);
     max_lazy := VInt 0;
     tools := [(VStr "b", 1); (VStr "a", 1)];
     models := [(VStr "x", 2)] |}.

(** A decoder like [sample_loads] that gives up on the line "deep", standing
    for a decoder that hits its nesting limit. *)
Definition crashing_loads (s : string) : decode_result :=
  if String.eqb s "deep" then DecodeRaises RecursionError
  else sample_loads s.

(** A world with a few logs: two clean ones and their concatenation, one
    with a blank and a malformed line in between, one without any record,
    and one on which [crashing_loads] gives up; an old report and a
    directory. *)
Definition log_world : world :=
  {| fs := {[ "a.json" := File ("{}" +:+ nl +:+ "5" +:+ nl);
              "b.json" := File ("[]" +:+ nl);
              "ab.json" := File (("{}" +:+ nl +:+ "5" +:+ nl) +:+ "[]" +:+ nl);
              "noisy.json" := File ("{}" +:+ nl +:+ "not json" +:+ nl +:+ "5" +:+ nl);
              "quiet.json" := File (nl +:+ "  " +:+ nl +:+ "not json" +:+ nl);
              "deep.json" := File ("{}" +:+ nl +:+ "deep" +:+ nl +:+ "{}" +:+ nl);
              "records.json" := File ("{}" +:+ nl +:+ "{}" +:+ nl);
              "old.md" := File "an old report";
              "reports" := Dir ]};
     locate := sample_locate;
     stdout := [];
     clock := sample_clock |}.

(** A summary whose only tool name is the lone surrogate U+D800, as
    [json.loads] returns it for the escape of that code point, and its report
    at the sample time. *)
Definition surrogate_summary : summary :=
  {| total_iterations := 1;
     total_latency := NInt 0;
     total_tokens := NInt 0;
     avg_latency := NFloat (S754_zero false);
     avg_tokens := NFloat (S754_zero false);
     max_lazy := VInt 0;
     tools := [(VStr (string_of_bytes [237; 160; 128]%N), 1)];
     models := [(VStr "unknown", 1)] |}.

Definition surrogate_report : list string :=
  match render_report sample_repr_float sample_repr_str surrogate_summary sample_clock with
  | Ok report => report
  | Raise _ => []
  end.

(** * Properties *)

(** ** Rounding to binary64 *)

Lemma digits2_pos_size p : digits2_pos p = Pos.size p.
Proof. induction p; simpl; congruence. Qed.

Lemma Zdigits2_le_iff m d : 0 <= m -> 0 <= d -> Zdigits2 m <= d <-> m < 2 ^ d.
Proof.
  intros Hm Hd. destruct m as [|p|p]; [| |lia].
  - simpl. split; [intros _; apply Z.pow_pos_nonneg; lia | lia].
  - assert (E : Zdigits2 (Z.pos p) = Z.succ (Z.log2 (Z.pos p))).
    { simpl. rewrite digits2_pos_size. destruct p; simpl; lia. }
    rewrite E, Z.log2_lt_pow2 by lia. lia.
Qed.

Lemma Zdigits2_pos m : 0 < m -> 1 <= Zdigits2 m.
Proof. destruct m; simpl; lia. Qed.

Lemma Zdigits2_lower m : 0 < m -> 2 ^ (Zdigits2 m - 1) <= m.
Proof.
  intros Hm. pose proof (Zdigits2_pos m Hm).
  destruct (Z.lt_ge_cases m (2 ^ (Zdigits2 m - 1))) as [Hlt|]; [|assumption].
  apply Zdigits2_le_iff in Hlt; lia.
Qed.

Lemma shr_1_m mrs : 0 <= shr_m mrs -> shr_m (shr_1 mrs) = shr_m mrs / 2.
Proof.
  destruct mrs as [m r s]. simpl. intros Hm.
  rewrite <- Z.div2_div. destruct m as [|[p|p|]|]; try reflexivity; lia.
Qed.

Lemma iter_shr_m p : forall mrs,
  0 <= shr_m mrs -> shr_m (SpecFloat.iter_pos shr_1 p mrs) = shr_m mrs / 2 ^ Z.pos p.
Proof.
  induction p as [p IH|p IH|]; intros mrs Hm; simpl SpecFloat.iter_pos.
  - assert (H1 : 0 <= shr_m (shr_1 mrs)).
    { rewrite shr_1_m by assumption. apply Z.div_pos; lia. }
    assert (H2 : 0 <= shr_m (SpecFloat.iter_pos shr_1 p (shr_1 mrs))).
    { rewrite IH by assumption. apply Z.div_pos; lia. }
    rewrite IH, IH, shr_1_m by assumption.
    rewrite !Z.div_div by lia. f_equal.
    rewrite (Pos2Z.inj_xI p).
    replace (2 * Z.pos p + 1) with (1 + Z.pos p + Z.pos p) by lia.
    rewrite !Z.pow_add_r by lia. rewrite Z.pow_1_r. ring.
  - assert (H2 : 0 <= shr_m (SpecFloat.iter_pos shr_1 p mrs)).
    { rewrite IH by assumption. apply Z.div_pos; lia. }
    rewrite IH, IH by assumption.
    rewrite !Z.div_div by lia. f_equal.
    rewrite (Pos2Z.inj_xO p).
    replace (2 * Z.pos p) with (Z.pos p + Z.pos p) by lia.
    rewrite Z.pow_add_r by lia. ring.
  - rewrite shr_1_m by assumption. reflexivity.
Qed.

Lemma shr_record_of_loc_m m l : shr_m (shr_record_of_loc m l) = m.
Proof. destruct l as [|[]]; reflexivity. Qed.

(** The exponent and mantissa after [shr_fexp]. *)
Lemma shr_fexp_spec m e l :
  0 <= m ->
  snd (shr_fexp prec emax m e l) = Z.max e (fexp prec emax (Zdigits2 m + e)) /\
  shr_m (fst (shr_fexp prec emax m e l)) = m / 2 ^ (snd (shr_fexp prec emax m e l) - e).
Proof.
  intros Hm. unfold shr_fexp, shr.
  destruct (fexp prec emax (Zdigits2 m + e) - e) as [|p|p] eqn:E; simpl fst; simpl snd.
  - split; [lia|]. rewrite Z.sub_diag, Z.pow_0_r, Z.div_1_r. apply shr_record_of_loc_m.
  - split; [lia|]. rewrite iter_shr_m by (rewrite shr_record_of_loc_m; assumption).
    rewrite shr_record_of_loc_m. f_equal. f_equal. lia.
  - split; [lia|]. rewrite Z.sub_diag, Z.pow_0_r, Z.div_1_r. apply shr_record_of_loc_m.
Qed.

Lemma round_nearest_even_bounds m l :
  m <= round_nearest_even m l <= m + 1.
Proof. destruct l as [|[]]; simpl; try destruct (Z.even m); lia. Qed.

Lemma fexp_eq e : fexp prec emax e = Z.max (e - 53) (-1074).
Proof. reflexivity. Qed.

(** A mantissa and exponent standing for less than [2^1023] never round to
    an infinity. *)
Lemma binary_round_aux_finite sx mx ex lx :
  0 <= mx -> ex <= 971 -> Zdigits2 mx + ex <= 1023 ->
  is_infinite (binary_round_aux prec emax sx mx ex lx) = false.
Proof.
  intros Hm He Hd. unfold binary_round_aux.
  destruct (shr_fexp_spec mx ex lx Hm) as [E1 M1].
  destruct (shr_fexp prec emax mx ex lx) as [mrs1 e1]. simpl fst in *; simpl snd in *.
  set (m1 := round_nearest_even (shr_m mrs1) (loc_of_shr_record mrs1)).
  pose proof (round_nearest_even_bounds (shr_m mrs1) (loc_of_shr_record mrs1)) as B1.
  fold m1 in B1.
  assert (Hm' : 0 <= shr_m mrs1) by (rewrite M1; apply Z.div_pos; [lia | apply Z.pow_pos_nonneg; lia]).
  assert (Hm1 : 0 <= m1) by lia.
  destruct (shr_fexp_spec m1 e1 loc_Exact Hm1) as [E2 M2].
  destruct (shr_fexp prec emax m1 e1 loc_Exact) as [mrs2 e2]. simpl fst in *; simpl snd in *.
  destruct (shr_m mrs2); try reflexivity.
  destruct (Z.leb_spec e2 (emax - prec)); [reflexivity|exfalso].
  rewrite fexp_eq in E1, E2. change (emax - prec) with 971 in *.
  assert (He1 : e1 <= 971) by lia.
  assert (Hmx : mx < 2 ^ (1023 - ex)) by (apply Zdigits2_le_iff; lia).
  assert (Hlt : shr_m mrs1 < 2 ^ (1023 - e1)).
  { rewrite M1. apply Z.div_lt_upper_bound; [apply Z.pow_pos_nonneg; lia|].
    rewrite <- Z.pow_add_r by lia. replace (e1 - ex + (1023 - e1)) with (1023 - ex) by lia.
    assumption. }
  assert (Hd1 : Zdigits2 m1 <= 1024 - e1).
  { apply Zdigits2_le_iff; [lia|lia|].
    replace (1024 - e1) with (Z.succ (1023 - e1)) by lia.
    rewrite Z.pow_succ_r by lia.
    assert (0 < 2 ^ (1023 - e1)) by (apply Z.pow_pos_nonneg; lia). lia. }
  lia.
Qed.

(** A positive mantissa above the subnormal range never rounds to zero. *)
Lemma binary_round_aux_nonzero sx mx ex lx :
  0 < mx -> -1073 <= Zdigits2 mx + ex ->
  is_zero (binary_round_aux prec emax sx mx ex lx) = false.
Proof.
  intros Hm Hd. unfold binary_round_aux.
  assert (shift_pos : forall m e e', 0 < m -> 0 <= e' - e <= Zdigits2 m - 1 -> 0 < m / 2 ^ (e' - e)).
  { intros m e e' Hmp Hk. apply Z.div_str_pos. split; [apply Z.pow_pos_nonneg; lia|].
    etransitivity; [|apply Zdigits2_lower; assumption].
    apply Z.pow_le_mono_r; lia. }
  destruct (shr_fexp_spec mx ex lx) as [E1 M1]; [lia|].
  destruct (shr_fexp prec emax mx ex lx) as [mrs1 e1]. simpl fst in *; simpl snd in *.
  set (m1 := round_nearest_even (shr_m mrs1) (loc_of_shr_record mrs1)).
  pose proof (round_nearest_even_bounds (shr_m mrs1) (loc_of_shr_record mrs1)) as B1.
  fold m1 in B1.
  rewrite fexp_eq in E1.
  pose proof (Zdigits2_pos mx Hm).
  assert (Hm' : 0 < shr_m mrs1) by (rewrite M1; apply shift_pos; lia).
  assert (Hm1 : 0 < m1) by lia.
  destruct (shr_fexp_spec m1 e1 loc_Exact) as [E2 M2]; [lia|].
  destruct (shr_fexp prec emax m1 e1 loc_Exact) as [mrs2 e2]. simpl fst in *; simpl snd in *.
  rewrite fexp_eq in E2.
  pose proof (Zdigits2_pos m1 Hm1).
  assert (Hm2 : 0 < shr_m mrs2) by (rewrite M2; apply shift_pos; lia).
  destruct (shr_m mrs2); try lia.
  destruct (e2 <=? emax - prec); reflexivity.
Qed.

Lemma iter_xO_pow mx d : Z.pos (Pos.iter xO mx d) = Z.pos mx * 2 ^ Z.pos d.
Proof.
  induction d as [|d IH] using Pos.peano_ind.
  - simpl. lia.
  - rewrite Pos.iter_succ, Pos2Z.inj_xO, IH, Pos2Z.inj_succ, Z.pow_succ_r by lia. ring.
Qed.

Lemma shl_align_spec mx ex ex' :
  snd (shl_align mx ex ex') = Z.min ex ex' /\
  Z.pos (fst (shl_align mx ex ex')) = Z.pos mx * 2 ^ (ex - snd (shl_align mx ex ex')).
Proof.
  unfold shl_align. destruct (ex' - ex) as [|d|d] eqn:E; simpl fst; simpl snd.
  - split; [lia|]. rewrite Z.sub_diag. simpl. lia.
  - split; [lia|]. rewrite Z.sub_diag. simpl. lia.
  - split; [lia|]. rewrite iter_xO_pow. f_equal. f_equal. lia.
Qed.

Lemma binary_round_finite sx mx ex :
  ex <= 971 -> Z.pos mx < 2 ^ (1023 - ex) ->
  is_infinite (binary_round prec emax sx mx ex) = false.
Proof.
  intros He Hm. unfold binary_round.
  destruct (shl_align_spec mx ex (fexp prec emax (Z.pos (digits2_pos mx) + ex))) as [E M].
  destruct (shl_align mx ex _) as [mz ez]. simpl fst in *; simpl snd in *.
  apply binary_round_aux_finite; [lia|lia|].
  assert (Z.pos mz < 2 ^ (1023 - ez)).
  { rewrite M. replace (1023 - ez) with ((1023 - ex) + (ex - ez)) by lia.
    rewrite Z.pow_add_r by lia.
    apply Z.mul_lt_mono_pos_r; [apply Z.pow_pos_nonneg; lia | assumption]. }
  assert (Zdigits2 (Z.pos mz) <= 1023 - ez) by (apply Zdigits2_le_iff; lia).
  lia.
Qed.

Lemma binary_round_nonzero sx mx ex :
  -1073 <= Zdigits2 (Z.pos mx) + ex ->
  is_zero (binary_round prec emax sx mx ex) = false.
Proof.
  intros Hd. unfold binary_round.
  destruct (shl_align_spec mx ex (fexp prec emax (Z.pos (digits2_pos mx) + ex))) as [E M].
  destruct (shl_align mx ex _) as [mz ez]. simpl fst in *; simpl snd in *.
  apply binary_round_aux_nonzero; [lia|].
  pose proof (Zdigits2_pos (Z.pos mx) ltac:(lia)) as Hdx.
  destruct (Z.lt_ge_cases (Zdigits2 (Z.pos mz)) (Zdigits2 (Z.pos mx) + (ex - ez))) as [Hlt|]; [exfalso|lia].
  assert (Hle : Zdigits2 (Z.pos mz) <= Zdigits2 (Z.pos mx) - 1 + (ex - ez)) by lia.
  apply Zdigits2_le_iff in Hle; [|lia|lia].
  rewrite Z.pow_add_r, M in Hle by lia.
  pose proof (Zdigits2_lower (Z.pos mx) ltac:(lia)).
  assert (0 < 2 ^ (ex - ez)) by (apply Z.pow_pos_nonneg; lia).
  nia.
Qed.

(** [float(z)] succeeds below [2^1023] in magnitude. *)
Lemma float_of_int_ok z : Z.abs z < 2 ^ 1023 -> exists f, float_of_int z = Ok f.
Proof.
  intros Hz. unfold float_of_int.
  assert (E : is_infinite (float_lit z 0) = false).
  { unfold float_lit, binary_normalize. destruct z as [|p|p]; [reflexivity| |];
      apply binary_round_finite; lia. }
  rewrite E. eauto.
Qed.

(** [float(z)] is not a zero when [z] is not. *)
Lemma float_of_int_nonzero z f : z <> 0 -> float_of_int z = Ok f -> is_zero f = false.
Proof.
  intros Hz. unfold float_of_int. destruct (is_infinite (float_lit z 0)); [discriminate|].
  intros [= <-]. unfold float_lit, binary_normalize.
  destruct z as [|p|p]; [lia| |]; apply binary_round_nonzero;
    pose proof (Zdigits2_pos (Z.pos p) ltac:(lia)); lia.
Qed.

Lemma div_eucl_fst a b : fst (Z.div_eucl a b) = a / b.
Proof. unfold Z.div. destruct (Z.div_eucl a b); reflexivity. Qed.

(** [a / b] on integers succeeds when the quotient stays below [2^960] in
    magnitude. *)
Lemma int_truediv_ok a b :
  b <> 0 -> Z.abs a <= Z.abs b * 2 ^ 960 -> exists f, int_truediv a b = Ok f.
Proof.
  intros Hb Ha. unfold int_truediv.
  destruct (Z.eqb_spec b 0); [contradiction|].
  destruct (Z.eqb_spec a 0); [eauto|].
  unfold SFdiv_core_binary.
  set (e' := Z.min (fexp prec emax (Zdigits2 (Z.abs a) + 0 - (Zdigits2 (Z.abs b) + 0))) (0 - 0)).
  set (m' := match 0 - 0 - e' with Z.pos _ => Z.shiftl (Z.abs a) (0 - 0 - e') | 0 => Z.abs a | Z.neg _ => 0 end).
  pose proof (div_eucl_fst m' (Z.abs b)) as Q.
  destruct (Z.div_eucl m' (Z.abs b)) as [q r]. simpl in Q.
  assert (He : e' <= 0) by (subst e'; lia).
  assert (Hm : m' = Z.abs a * 2 ^ (- e')).
  { subst m'. destruct (0 - 0 - e') as [|s|s] eqn:E.
    - replace (- e') with 0 by lia. simpl. lia.
    - rewrite Z.shiftl_mul_pow2 by lia. f_equal. f_equal. lia.
    - lia. }
  assert (Hpow : 0 < 2 ^ (- e')) by (apply Z.pow_pos_nonneg; lia).
  assert (Hq : 0 <= q) by (rewrite Q; apply Z.div_pos; lia).
  assert (Hlt : q < 2 ^ (1023 - e')).
  { rewrite Q. apply Z.div_lt_upper_bound; [lia|].
    replace (1023 - e') with (1023 + - e') by lia. rewrite Z.pow_add_r by lia.
    rewrite Hm.
    assert (2 ^ 960 < 2 ^ 1023) by (apply Z.pow_lt_mono_r; lia).
    nia. }
  assert (E : is_infinite (binary_round_aux prec emax (xorb (a <? 0) (b <? 0)) q e' (new_location (Z.abs b) r)) = false).
  { apply binary_round_aux_finite; [lia|lia|].
    assert (Zdigits2 q <= 1023 - e') by (apply Zdigits2_le_iff; lia). lia. }
  rewrite E. eauto.
Qed.

(** ** The error monad *)

Lemma bind_Ok {A B} (r : result A) (k : A -> result B) b :
  bind r k = Ok b -> exists a, r = Ok a /\ k a = Ok b.
Proof. destruct r; simpl; [eauto | discriminate]. Qed.

Ltac bind_inv H :=
  let a := fresh "a" in
  let E := fresh "E" in
  apply bind_Ok in H; destruct H as (a & E & H).

(** ** Histograms *)

Lemma hist_total_set h k c :
  hist_total (hist_set h k c) = hist_total h - hist_get h k 0 + c.
Proof.
  induction h as [|[k' c'] h IH]; simpl.
  - lia.
  - destruct (py_same k' k); simpl; [lia|]. rewrite IH. lia.
Qed.

Lemma hist_incr_total h k h' :
  hist_incr h k = Ok h' -> hist_total h' = hist_total h + 1.
Proof.
  unfold hist_incr. destruct (hashable k); [|discriminate].
  intros [= <-]. rewrite hist_total_set. lia.
Qed.

Lemma count_loop_total ms : forall t m r,
  count_loop ms t m = Ok r ->
  hist_total (fst r) = hist_total t + Z.of_nat (length ms) /\
  hist_total (snd r) = hist_total m + Z.of_nat (length ms).
Proof.
  induction ms as [|x ms IH]; intros t m r H.
  - simpl in H. injection H as <-. simpl. lia.
  - cbn [count_loop] in H. do 4 bind_inv H.
    apply IH in H. destruct H as [Ht Hm].
    match goal with E : hist_incr t _ = Ok _ |- _ => apply hist_incr_total in E; rename E into T end.
    match goal with E : hist_incr m _ = Ok _ |- _ => apply hist_incr_total in E; rename E into M end.
    rewrite length_cons, Nat2Z.inj_succ. lia.
Qed.

(** ** What a returned summary records *)

Lemma calculate_stats_Some ms s :
  calculate_stats ms = Ok (Some s) ->
  ms <> [] /\
  total_iterations s = Z.of_nat (length ms) /\
  py_sum (fun m => py_get m "latency" (VInt 0)) ms = Ok (total_latency s) /\
  py_sum (fun m => py_get m "tokens" (VInt 0)) ms = Ok (total_tokens s) /\
  num_truediv (total_latency s) (NInt (total_iterations s)) = Ok (avg_latency s) /\
  num_truediv (total_tokens s) (NInt (total_iterations s)) = Ok (avg_tokens s) /\
  py_max (fun m => py_get m "lazy_streak" (VInt 0)) ms = Ok (max_lazy s) /\
  count_loop ms [] [] = Ok (tools s, models s).
Proof.
  destruct ms as [|m ms]; [discriminate|].
  unfold calculate_stats. intros H.
  replace (0 <? Z.of_nat (length (m :: ms))) with true in H
    by (symmetry; apply Z.ltb_lt; rewrite length_cons; lia).
  do 6 bind_inv H. injection H as <-. simpl.
  repeat split; try assumption; try discriminate.
  match goal with E : count_loop _ _ _ = Ok ?c |- _ => destruct c; exact E end.
Qed.

(** C1: for the two records of the worked example, in that order, the
    aggregator returns the summary with total_iterations 2, total_latency
    4.0, avg_latency 2.0, total_tokens 30, avg_tokens 15.0, tools a:1 and b:1,
    models x:2. *)
Theorem worked_example_summary :
  calculate_stats [record_a; record_b] = Ok (Some summary_ab).
Proof. vm_compute. reflexivity. Qed.

(** C2: for a non-empty record sequence, the counts of the tools histogram
    and those of the models histogram of the returned summary each sum to
    total_iterations. *)
Theorem histogram_counts_sum_to_total ms s :
  ms <> [] ->
  calculate_stats ms = Ok (Some s) ->
  hist_total (tools s) = total_iterations s /\
  hist_total (models s) = total_iterations s.
Proof.
  intros _ H. apply calculate_stats_Some in H.
  destruct H as (_ & -> & _ & _ & _ & _ & _ & C).
  apply count_loop_total in C. simpl in C. lia.
Qed.

Lemma histogram_counts_sum_to_total_witness :
  hist_total (tools summary_ab) = total_iterations summary_ab /\
  hist_total (models summary_ab) = total_iterations summary_ab.
Proof.
  apply (histogram_counts_sum_to_total [record_a; record_b]).
  - discriminate.
  - vm_compute. reflexivity.
Defined.

(** C10: the aggregator returns absent exactly on the empty sequence; a
    returned summary has total_iterations equal to the sequence length and
    at least 1, so both averages come from the division, never from the
    zero-count fallback, and neither division can divide by zero. *)
Theorem absent_iff_empty_and_divisions_safe ms :
  (calculate_stats ms = Ok None <-> ms = []) /\
  (forall s, calculate_stats ms = Ok (Some s) ->
     total_iterations s = Z.of_nat (length ms) /\
     1 <= total_iterations s /\
     (0 <? total_iterations s) = true /\
     num_truediv (total_latency s) (NInt (total_iterations s)) = Ok (avg_latency s) /\
     num_truediv (total_tokens s) (NInt (total_iterations s)) = Ok (avg_tokens s)) /\
  (ms <> [] -> forall total,
     num_truediv total (NInt (Z.of_nat (length ms))) <> Raise ZeroDivisionError).
Proof.
  split; [|split].
  - split; [|intros ->; reflexivity].
    destruct ms as [|m ms]; [reflexivity|].
    unfold calculate_stats. intros H. do 6 bind_inv H. discriminate.
  - intros s H. apply calculate_stats_Some in H.
    destruct H as (Hne & Hn & _ & _ & Hl & Ht & _).
    assert (1 <= total_iterations s).
    { rewrite Hn. destruct ms; [contradiction|]. rewrite length_cons. lia. }
    repeat split; try assumption. apply Z.ltb_lt. lia.
  - intros Hne total.
    assert (Hn : Z.of_nat (length ms) <> 0).
    { destruct ms; [contradiction|]. rewrite length_cons. lia. }
    destruct total as [a|f]; simpl.
    + unfold int_truediv. destruct (Z.eqb_spec (Z.of_nat (length ms)) 0); [contradiction|].
      destruct (a =? 0); [discriminate|].
      destruct (SFdiv_core_binary _ _ _ _ _ _) as [[q e] l].
      destruct (is_infinite _); discriminate.
    + destruct (float_of_int (Z.of_nat (length ms))) as [g|e] eqn:G.
      * simpl. unfold float_truediv. rewrite (float_of_int_nonzero _ _ Hn G). discriminate.
      * simpl. unfold float_of_int in G. destruct (is_infinite _); [|discriminate].
        injection G as <-. discriminate.
Qed.

Lemma absent_iff_empty_and_divisions_safe_witness :
  total_iterations summary_ab = 2 /\
  1 <= total_iterations summary_ab /\
  (0 <? total_iterations summary_ab) = true /\
  num_truediv (total_latency summary_ab) (NInt (total_iterations summary_ab))
    = Ok (avg_latency summary_ab) /\
  num_truediv (total_tokens summary_ab) (NInt (total_iterations summary_ab))
    = Ok (avg_tokens summary_ab).
Proof.
  apply (proj1 (proj2 (absent_iff_empty_and_divisions_safe [record_a; record_b])) summary_ab).
  vm_compute. reflexivity.
Defined.

(** ** Well-typed records never make the aggregator raise *)

Lemma pow_63_960 : 2 ^ 63 * 2 ^ 960 = 2 ^ 1023.
Proof. rewrite <- Z.pow_add_r by lia. reflexivity. Qed.

Lemma moderate_default : moderate_number (VInt 0) = true.
Proof. unfold moderate_number. simpl. apply Z.ltb_lt. apply Z.pow_pos_nonneg; lia. Qed.

Lemma py_add_within c acc v :
  0 <= c < 2 ^ 63 -> within c acc -> moderate_number v = true ->
  exists r, py_add acc v = Ok r /\ within (c + 1) r.
Proof.
  intros Hc Hacc Hv. unfold py_add, moderate_number in *.
  pose proof pow_63_960 as P.
  assert (0 < 2 ^ 960) by (apply Z.pow_pos_nonneg; lia).
  destruct (as_num v) as [[z|g]|]; [| |discriminate].
  - apply Z.ltb_lt in Hv. destruct acc as [a|f]; simpl in *.
    + eexists; split; [reflexivity|]. simpl. lia.
    + destruct (float_of_int_ok z) as [g ->]; [nia|]. simpl.
      eexists; split; [reflexivity|exact I].
  - destruct acc as [a|f]; simpl in *.
    + destruct (float_of_int_ok a) as [f ->]; [nia|]. simpl.
      eexists; split; [reflexivity|exact I].
    + eexists; split; [reflexivity|exact I].
Qed.

Lemma sum_from_within k ms : forall acc c,
  Forall (fun m => exists d, m = VDict d /\ field_ok moderate_number d k = true) ms ->
  0 <= c -> c + Z.of_nat (length ms) <= 2 ^ 63 -> within c acc ->
  exists r, sum_from (fun m => py_get m k (VInt 0)) ms acc = Ok r /\
            within (c + Z.of_nat (length ms)) r.
Proof.
  induction ms as [|m ms IH]; intros acc c Hall Hc Hlen Hacc.
  - simpl. rewrite Z.add_0_r. eauto.
  - inversion Hall as [|? ? (d & -> & Hf) Hall']; subst.
    rewrite length_cons, Nat2Z.inj_succ in *.
    cbn [sum_from py_get bind].
    destruct (py_add_within c acc (match assoc k d with Some v => v | None => VInt 0 end))
      as (acc' & -> & Hacc'); [lia|assumption| |].
    { unfold field_ok in Hf. destruct (assoc k d); [assumption|apply moderate_default]. }
    cbn [bind]. destruct (IH acc' (c + 1)) as (r & -> & Hr); [assumption|lia|lia|assumption|].
    exists r. split; [reflexivity|]. replace (c + Z.succ (Z.of_nat (length ms)))
      with (c + 1 + Z.of_nat (length ms)) by lia. assumption.
Qed.

Lemma num_truediv_count_ok total n :
  0 < n < 2 ^ 63 -> within n total -> exists q, num_truediv total (NInt n) = Ok q.
Proof.
  intros Hn Ht. destruct total as [a|f]; simpl in *.
  - destruct (int_truediv_ok a n) as [q ->]; [lia|lia|]. simpl. eauto.
  - destruct (float_of_int_ok n) as [g G].
    { assert (2 ^ 63 < 2 ^ 1023) by (apply Z.pow_lt_mono_r; lia). lia. }
    rewrite G. simpl. unfold float_truediv.
    rewrite (float_of_int_nonzero n g) by (lia || assumption). simpl. eauto.
Qed.

Lemma py_gt_numbers a b :
  is_number a = true -> is_number b = true -> exists r, py_gt a b = Ok r.
Proof.
  unfold is_number. destruct a, b; simpl; try discriminate; eauto.
Qed.

Lemma max_from_numbers k ms : forall cur,
  Forall (fun m => exists d, m = VDict d /\ field_ok is_number d k = true) ms ->
  is_number cur = true ->
  exists r, max_from (fun m => py_get m k (VInt 0)) ms cur = Ok r.
Proof.
  induction ms as [|m ms IH]; intros cur Hall Hcur.
  - simpl. eauto.
  - inversion Hall as [|? ? (d & -> & Hf) Hall']; subst.
    cbn [max_from py_get bind].
    set (v := match assoc k d with Some v => v | None => VInt 0 end).
    assert (Hv : is_number v = true).
    { subst v. unfold field_ok in Hf. destruct (assoc k d); [assumption|reflexivity]. }
    destruct (py_gt_numbers v cur Hv Hcur) as [b ->]. cbn [bind].
    apply IH; [assumption|]. destruct b; assumption.
Qed.

Lemma count_loop_hashable ms : forall t m,
  Forall (fun x => exists d, x = VDict d /\ field_ok hashable d "tool" = true /\
                             field_ok hashable d "model" = true) ms ->
  exists r, count_loop ms t m = Ok r.
Proof.
  induction ms as [|x ms IH]; intros t m Hall.
  - simpl. eauto.
  - inversion Hall as [|? ? (d & -> & Ht & Hm) Hall']; subst.
    cbn [count_loop py_get bind]. unfold hist_incr, field_ok in *.
    assert (T : hashable (match assoc "tool" d with Some v => v | None => VStr "unknown" end) = true)
      by (destruct (assoc "tool" d); [assumption|reflexivity]).
    assert (M : hashable (match assoc "model" d with Some v => v | None => VStr "unknown" end) = true)
      by (destruct (assoc "model" d); [assumption|reflexivity]).
    rewrite T. cbn [bind]. rewrite M. cbn [bind]. apply IH. assumption.
Qed.

Lemma well_typed_fields m :
  well_typed m = true ->
  exists d, m = VDict d /\
    field_ok moderate_number d "latency" = true /\
    field_ok moderate_number d "tokens" = true /\
    field_ok is_number d "lazy_streak" = true /\
    field_ok hashable d "tool" = true /\ field_ok hashable d "model" = true.
Proof.
  destruct m; try discriminate. simpl. intros H.
  repeat (apply andb_prop in H; destruct H as [H ?]). eauto 10.
Qed.

Lemma calculate_stats_well_typed ms :
  Z.of_nat (length ms) < 2 ^ 63 ->
  Forall (fun m => well_typed m = true) ms ->
  exists r, calculate_stats ms = Ok r.
Proof.
  intros Hlen Hall. destruct ms as [|m0 ms0] eqn:Ems; [simpl; eauto|]. rewrite <- Ems in *.
  assert (Hpos : 0 < Z.of_nat (length ms)) by (subst ms; rewrite length_cons; lia).
  assert (Hf : Forall (fun m => exists d, m = VDict d /\
    field_ok moderate_number d "latency" = true /\
    field_ok moderate_number d "tokens" = true /\
    field_ok is_number d "lazy_streak" = true /\
    field_ok hashable d "tool" = true /\ field_ok hashable d "model" = true) ms).
  { eapply Forall_impl; [exact Hall|]. apply well_typed_fields. }
  assert (W0 : within 0 (NInt 0)) by (simpl; lia).
  destruct (sum_from_within "latency" ms (NInt 0) 0) as (tl & Etl & Wtl); [|lia|lia|exact W0|].
  { eapply Forall_impl; [exact Hf|]. intros ? (d & ? & ? & _). eauto. }
  destruct (sum_from_within "tokens" ms (NInt 0) 0) as (tt & Ett & Wtt); [|lia|lia|exact W0|].
  { eapply Forall_impl; [exact Hf|]. intros ? (d & ? & _ & ? & _). eauto. }
  rewrite Z.add_0_l in Wtl, Wtt.
  destruct (num_truediv_count_ok tl (Z.of_nat (length ms))) as [al Eal]; [lia|assumption|].
  destruct (num_truediv_count_ok tt (Z.of_nat (length ms))) as [at' Eat]; [lia|assumption|].
  assert (Emax : exists r, py_max (fun m => py_get m "lazy_streak" (VInt 0)) ms = Ok r).
  { subst ms. inversion Hf as [|? ? (d & -> & _ & _ & Hz & _) Hf']; subst.
    cbn [py_max py_get bind]. apply max_from_numbers.
    - eapply Forall_impl; [exact Hf'|]. intros ? (d' & ? & _ & _ & ? & _). eauto.
    - unfold field_ok in Hz. destruct (assoc "lazy_streak" d); [assumption|reflexivity]. }
  destruct Emax as [mx Emx].
  destruct (count_loop_hashable ms [] []) as [cs Ecs].
  { eapply Forall_impl; [exact Hf|]. intros ? (d & ? & _ & _ & _ & ? & ?). eauto. }
  unfold calculate_stats. rewrite Ems, <- Ems.
  unfold py_sum in *. rewrite Etl. cbn [bind]. rewrite Ett. cbn [bind].
  replace (0 <? Z.of_nat (length ms)) with true by (symmetry; apply Z.ltb_lt; lia).
  rewrite Eal. cbn [bind]. rewrite Eat. cbn [bind]. rewrite Emx. cbn [bind].
  rewrite Ecs. cbn [bind]. eauto.
Qed.




(** ** The parser *)

Section Pipeline.

Variable json_loads : string -> decode_result.
Variable float_repr : spec_float -> string.
Variable str_repr : string -> string.

Lemma parse_lines_spec lines : forall acc,
  Forall (fun line => decoder_crashes json_loads line = false) lines ->
  parse_lines json_loads lines acc = Ok (acc ++ omap (decodable json_loads) lines).
Proof.
  induction lines as [|line lines IH]; intros acc Hall.
  - simpl. rewrite app_nil_r. reflexivity.
  - inversion Hall as [|? ? Hline Hrest]; subst.
    cbn [parse_lines omap list_omap]. unfold decodable at 1. unfold decoder_crashes in Hline.
    destruct (is_empty_string (strip line)); [apply IH; assumption|].
    destruct (json_loads (strip line)); [|apply IH; assumption|discriminate].
    rewrite IH by assumption. rewrite <- app_assoc. reflexivity.
Qed.

Lemma parse_lines_Ok lines : forall acc ms,
  parse_lines json_loads lines acc = Ok ms ->
  ms = acc ++ omap (decodable json_loads) lines.
Proof.
  induction lines as [|line lines IH]; intros acc ms H.
  - simpl in H. injection H as <-. rewrite app_nil_r. reflexivity.
  - cbn [parse_lines omap list_omap] in *. unfold decodable at 1.
    destruct (is_empty_string (strip line)); [apply IH; assumption|].
    destruct (json_loads (strip line)); [|apply IH; assumption|discriminate].
    apply IH in H. rewrite <- app_assoc in H. exact H.
Qed.

(** The parser on a path that leads to a text file. *)
Lemma parse_metrics_text p w content :
  text_at w p = Some content ->
  parse_metrics json_loads p w = (parse_lines json_loads (readlines content) [], w).
Proof.
  unfold text_at. destruct (path_exists w p) eqn:Hex; [|discriminate].
  destruct (locate w Read p) as [name|] eqn:Hl; [|discriminate].
  destruct (fs w !! name) as [[c| |]|] eqn:Hf; try discriminate.
  intros [= ->]. unfold parse_metrics, io_bind, os_path_exists, open_read, io_lift.
  rewrite Hex. cbn [negb]. rewrite Hl, Hf. reflexivity.
Qed.

Lemma parse_metrics_file p w content :
  text_at w p = Some content ->
  Forall (fun line => decoder_crashes json_loads line = false) (readlines content) ->
  parse_metrics json_loads p w = (Ok (omap (decodable json_loads) (readlines content)), w).
Proof.
  intros Hp Hall. rewrite (parse_metrics_text p w content Hp).
  rewrite parse_lines_spec by assumption. reflexivity.
Qed.

Lemma parse_metrics_file_Ok p w content ms :
  text_at w p = Some content ->
  fst (parse_metrics json_loads p w) = Ok ms ->
  ms = omap (decodable json_loads) (readlines content).
Proof.
  intros Hp. rewrite (parse_metrics_text p w content Hp). cbn [fst].
  intros H. apply parse_lines_Ok in H. exact H.
Qed.

Lemma parse_metrics_missing p w :
  path_exists w p = false ->
  encodable ("Error: Metrics file not found at " +:+ p) = true ->
  parse_metrics json_loads p w = (Ok [], printed ("Error: Metrics file not found at " +:+ p) w).
Proof.
  intros Hp He. unfold parse_metrics, io_bind, os_path_exists, print.
  rewrite Hp. cbn [negb]. rewrite He. reflexivity.
Qed.

Lemma omap_decodable_length (lines : list string) :
  length (omap (decodable json_loads) lines) = length (List.filter (is_decodable json_loads) lines).
Proof.
  induction lines as [|line lines IH]; [reflexivity|].
  cbn [omap list_omap List.filter]. unfold is_decodable.
  destruct (decodable json_loads line); simpl; [f_equal|]; exact IH.
Qed.

Lemma elem_of_omap_decodable (v : value) (lines : list string) :
  v ∈ omap (decodable json_loads) lines <->
  exists line, line ∈ lines /\ strip line <> EmptyString /\ json_loads (strip line) = Decoded v.
Proof.
  rewrite list_elem_of_omap. unfold decodable. split.
  - intros (line & Hin & H). exists line. split; [assumption|].
    destruct (strip line); [discriminate|]. simpl in H.
    destruct (json_loads _); try discriminate. injection H as ->. split; [discriminate|reflexivity].
  - intros (line & Hin & Hne & H). exists line. split; [assumption|].
    destruct (strip line); [contradiction|]. simpl. rewrite H. reflexivity.
Qed.

(** C4, amended: the sequence returned for a file holds exactly the values
    decoded from its non-blank lines, whatever their shape: a value is
    returned if and only if some non-blank line decodes to it, mapping or
    not. *)
Theorem parse_returns_every_decoded_value p w content (ms : list value) :
  text_at w p = Some content ->
  fst (parse_metrics json_loads p w) = Ok ms ->
  forall v, v ∈ ms <->
    exists line, line ∈ readlines content /\ strip line <> EmptyString /\
                 json_loads (strip line) = Decoded v.
Proof.
  intros Hp H v. rewrite (parse_metrics_file_Ok p w content ms Hp H).
  apply elem_of_omap_decodable.
Qed.

Lemma calculate_stats_None m ms : calculate_stats (m :: ms) <> Ok None.
Proof.
  unfold calculate_stats. intros H. do 6 bind_inv H. discriminate.
Qed.

(** C5, amended: for an input file that is readable text and on whose lines
    the decoder raises nothing but JSONDecodeError, the parser drops the
    lines that are blank once stripped and the lines the decoder rejects, and
    returns the values of the other lines in file order.  Whenever the
    aggregator returns a summary for them, and it does when they are
    well-typed records, at least one and fewer than 2^63, its
    total_iterations is the number of decodable lines. *)
Theorem parse_keeps_decodable_lines_in_order p w content :
  text_at w p = Some content ->
  Forall (fun line => decoder_crashes json_loads line = false) (readlines content) ->
  parse_metrics json_loads p w
    = (Ok (omap (decodable json_loads) (readlines content)), w) /\
  (forall s,
     calculate_stats (omap (decodable json_loads) (readlines content)) = Ok (Some s) ->
     total_iterations s
       = Z.of_nat (length (List.filter (is_decodable json_loads) (readlines content)))) /\
  (omap (decodable json_loads) (readlines content) <> [] ->
   Z.of_nat (length (omap (decodable json_loads) (readlines content))) < 2 ^ 63 ->
   Forall (fun m => well_typed m = true) (omap (decodable json_loads) (readlines content)) ->
   exists s,
     calculate_stats (omap (decodable json_loads) (readlines content)) = Ok (Some s) /\
     total_iterations s
       = Z.of_nat (length (List.filter (is_decodable json_loads) (readlines content)))).
Proof.
  intros Hp Hall.
  assert (Hcount : forall s,
    calculate_stats (omap (decodable json_loads) (readlines content)) = Ok (Some s) ->
    total_iterations s
      = Z.of_nat (length (List.filter (is_decodable json_loads) (readlines content)))).
  { intros s H. apply calculate_stats_Some in H.
    destruct H as (_ & -> & _). rewrite omap_decodable_length. reflexivity. }
  split; [apply parse_metrics_file; assumption|]. split; [exact Hcount|].
  intros Hne Hlen Hwt.
  destruct (calculate_stats_well_typed _ Hlen Hwt) as [[s|] Hs].
  - exists s. split; [assumption|]. apply Hcount. assumption.
  - destruct (omap (decodable json_loads) (readlines content)); [contradiction|].
    apply calculate_stats_None in Hs. contradiction.
Qed.

(** ** The reporter *)

(** C6: on the empty sequence the aggregator returns absent, and the reporter
    given an absent summary prints the one diagnostic, leaves the file system
    untouched and raises nothing, whatever the output path. *)
Theorem empty_input_reports_nothing :
  calculate_stats [] = Ok None /\
  forall out w,
    generate_report float_repr str_repr None out w
      = (Ok tt, printed "No statistics to report." w) /\
    fs (printed "No statistics to report." w) = fs w /\
    stdout (printed "No statistics to report." w) = stdout w ++ ["No statistics to report."].
Proof. split; [reflexivity|]. intros out w. repeat split. Qed.

(** C7, amended: when nothing exists at the input path, neither a file nor
    a directory, and the path can be printed, the parser prints a diagnostic
    and returns the empty sequence, and the whole pipeline runs to
    completion, printing that there is nothing to report. *)
Theorem missing_input_is_soft p out w :
  path_exists w p = false ->
  encodable ("Error: Metrics file not found at " +:+ p) = true ->
  parse_metrics json_loads p w
    = (Ok [], printed ("Error: Metrics file not found at " +:+ p) w) /\
  main json_loads float_repr str_repr (Some p) out w
    = (Ok tt, printed "No statistics to report."
                (printed ("Error: Metrics file not found at " +:+ p) w)).
Proof.
  intros Hp He. split; [apply parse_metrics_missing; assumption|].
  unfold main, io_bind. rewrite parse_metrics_missing by assumption. reflexivity.
Qed.


(** The reporter on a summary that renders: the output step on the
    document. *)
Lemma generate_report_emit stats out w report :
  render_report float_repr str_repr stats (clock w) = Ok report ->
  generate_report float_repr str_repr (Some stats) out w
    = emit_document out (join nl report) w.
Proof.
  intros Hr. unfold generate_report, emit_document, io_bind, datetime_now, io_lift.
  rewrite Hr. destruct out as [[|c p]|]; reflexivity.
Qed.

Lemma generate_report_unrendered stats out w e :
  render_report float_repr str_repr stats (clock w) = Raise e ->
  generate_report float_repr str_repr (Some stats) out w = (Raise e, w).
Proof.
  intros Hr. unfold generate_report, io_bind, datetime_now, io_lift.
  rewrite Hr. reflexivity.
Qed.




(** ** Two runs differ by the timestamp only *)

Lemma append_assoc (a b c : string) : (a +:+ b) +:+ c = a +:+ b +:+ c.
Proof.
  induction a as [|x a IH]; [reflexivity|].
  change (String x ((a +:+ b) +:+ c) = String x (a +:+ b +:+ c)). rewrite IH. reflexivity.
Qed.

Lemma has_newline_app a b : has_newline (a +:+ b) = has_newline a || has_newline b.
Proof.
  induction a as [|x a IH]; [reflexivity|].
  change (Ascii.eqb x "010" || has_newline (a +:+ b)
          = (Ascii.eqb x "010" || has_newline a) || has_newline b).
  rewrite IH. apply orb_assoc.
Qed.

Lemma has_newline_zeros n : has_newline (string_of_list_ascii (List.repeat "0"%char n)) = false.
Proof. induction n; [reflexivity|]. exact IHn. Qed.

Lemma has_newline_zero_pad n s : has_newline (zero_pad n s) = has_newline s.
Proof. unfold zero_pad. rewrite has_newline_app, has_newline_zeros. reflexivity. Qed.

Lemma pretty_N_char_not_newline x : Ascii.eqb (pretty_N_char x) "010" = false.
Proof. unfold pretty_N_char. repeat case_match; reflexivity. Qed.

Lemma has_newline_pretty_N_go x : forall s,
  has_newline s = false -> has_newline (pretty_N_go x s) = false.
Proof.
  induction (N.lt_wf_0 x) as [x _ IH]. intros s Hs.
  destruct (N.eq_dec x 0%N) as [->|Hx].
  - rewrite pretty_N_go_0. assumption.
  - rewrite pretty_N_go_step by lia. apply IH.
    + apply N.div_lt; lia.
    + unfold has_newline in *. simpl. rewrite pretty_N_char_not_newline. assumption.
Qed.

Lemma has_newline_pretty_nat (n : nat) : has_newline (pretty n) = false.
Proof.
  unfold pretty, pretty_nat, pretty, pretty_N. case_decide; [reflexivity|].
  apply has_newline_pretty_N_go. reflexivity.
Qed.

Lemma strftime_one_line d : has_newline (strftime d) = false.
Proof.
  unfold strftime.
  repeat rewrite ?has_newline_app, ?has_newline_zero_pad, ?has_newline_pretty_nat.
  reflexivity.
Qed.

Lemma plain_ascii_app a b : plain_ascii (a +:+ b) = plain_ascii a && plain_ascii b.
Proof.
  induction a as [|x a IH]; [reflexivity|].
  change ((N_of_ascii x <? 128)%N && plain_ascii (a +:+ b)
          = ((N_of_ascii x <? 128)%N && plain_ascii a) && plain_ascii b).
  rewrite IH. apply andb_assoc.
Qed.

Lemma plain_ascii_zeros n : plain_ascii (string_of_list_ascii (List.repeat "0"%char n)) = true.
Proof. induction n; [reflexivity|]. exact IHn. Qed.

Lemma plain_ascii_zero_pad n s : plain_ascii (zero_pad n s) = plain_ascii s.
Proof. unfold zero_pad. rewrite plain_ascii_app, plain_ascii_zeros. reflexivity. Qed.

Lemma pretty_N_char_ascii x : (N_of_ascii (pretty_N_char x) <? 128)%N = true.
Proof. unfold pretty_N_char. repeat case_match; reflexivity. Qed.

Lemma plain_ascii_pretty_N_go x : forall s,
  plain_ascii s = true -> plain_ascii (pretty_N_go x s) = true.
Proof.
  induction (N.lt_wf_0 x) as [x _ IH]. intros s Hs.
  destruct (N.eq_dec x 0%N) as [->|Hx].
  - rewrite pretty_N_go_0. assumption.
  - rewrite pretty_N_go_step by lia. apply IH.
    + apply N.div_lt; lia.
    + unfold plain_ascii in *. simpl. rewrite pretty_N_char_ascii. assumption.
Qed.

Lemma plain_ascii_pretty_nat (n : nat) : plain_ascii (pretty n) = true.
Proof.
  unfold pretty, pretty_nat, pretty, pretty_N. case_decide; [reflexivity|].
  apply plain_ascii_pretty_N_go. reflexivity.
Qed.

Lemma strftime_plain_ascii d : plain_ascii (strftime d) = true.
Proof.
  unfold strftime.
  repeat rewrite ?plain_ascii_app, ?plain_ascii_zero_pad, ?plain_ascii_pretty_nat.
  reflexivity.
Qed.

Lemma append_cons a c b : exists c' s', a +:+ String c b = String c' s'.
Proof. destruct a; simpl; eauto. Qed.

Lemma strftime_cons d : exists c s, strftime d = String c s.
Proof. unfold strftime. apply append_cons. Qed.

Lemma has_surrogate_ascii_cons c s :
  (N_of_ascii c <? 128)%N = true -> has_surrogate (String c s) = has_surrogate s.
Proof.
  intros Hc. apply N.ltb_lt in Hc. destruct s as [|d s]; [reflexivity|].
  cbn [has_surrogate]. replace (N_of_ascii c =? 237)%N with false; [reflexivity|].
  symmetry. apply N.eqb_neq. lia.
Qed.

Lemma has_surrogate_before_ascii h c x :
  (N_of_ascii c <? 128)%N = true ->
  has_surrogate (h +:+ String c x) = has_surrogate h || has_surrogate (String c x).
Proof.
  intros Hc. induction h as [|a h IH]; [reflexivity|].
  destruct h as [|b h].
  - change (String a EmptyString +:+ String c x) with (String a (String c x)).
    cbn [has_surrogate]. apply N.ltb_lt in Hc.
    replace (160 <=? N_of_ascii c)%N with false; [rewrite andb_false_r; reflexivity|].
    symmetry. apply N.leb_gt. lia.
  - change (String a (String b h) +:+ String c x)
      with (String a (String b (h +:+ String c x))).
    change (has_surrogate (String a (String b (h +:+ String c x))))
      with ((N_of_ascii a =? 237)%N && (160 <=? N_of_ascii b)%N && (N_of_ascii b <=? 191)%N
            || has_surrogate (String b h +:+ String c x)).
    rewrite IH. cbn [has_surrogate]. rewrite orb_assoc. reflexivity.
Qed.

Lemma has_surrogate_ascii_prefix x t :
  plain_ascii x = true -> has_surrogate (x +:+ t) = has_surrogate t.
Proof.
  induction x as [|c x IH]; [reflexivity|]. intros Hx.
  change (plain_ascii (String c x)) with ((N_of_ascii c <? 128)%N && plain_ascii x) in Hx.
  apply andb_prop in Hx. destruct Hx as [Hc Hx].
  change (String c x +:+ t) with (String c (x +:+ t)).
  rewrite has_surrogate_ascii_cons by assumption. apply IH. assumption.
Qed.

(** Whether a document around the formatted time can be encoded does not
    depend on the time. *)
Lemma encodable_around_time head tail d :
  encodable (head +:+ strftime d +:+ tail) = negb (has_surrogate head || has_surrogate tail).
Proof.
  unfold encodable. f_equal.
  destruct (strftime_cons d) as (c & s & E).
  pose proof (strftime_plain_ascii d) as Hp.
  rewrite <- (has_surrogate_ascii_prefix (strftime d) tail Hp).
  rewrite E in *.
  change (plain_ascii (String c s)) with ((N_of_ascii c <? 128)%N && plain_ascii s) in Hp.
  apply andb_prop in Hp. destruct Hp as [Hc _].
  change (String c s +:+ tail) with (String c (s +:+ tail)).
  apply has_surrogate_before_ascii. assumption.
Qed.

(** Only the second entry of the report depends on the time. *)
Lemma render_report_shape stats :
  (exists e, forall now, render_report float_repr str_repr stats now = Raise e) \/
  (exists rest, forall now,
     render_report float_repr str_repr stats now
       = Ok ("# Ralph Performance Benchmark Report" :: timestamp_entry now ::
             (nl +:+ "## Summary Metrics") :: rest)).
Proof.
  unfold render_report.
  destruct (format_f 2 (total_latency stats)) as [s1|e]; [|left; exists e; reflexivity].
  destruct (format_f 2 (avg_latency stats)) as [s2|e]; [|left; exists e; reflexivity].
  destruct (format_f 1 (avg_tokens stats)) as [s3|e]; [|left; exists e; reflexivity].
  right. eexists. intros now. cbn [bind app]. reflexivity.
Qed.

Lemma parse_metrics_unfold p w :
  parse_metrics json_loads p w =
  if path_exists w p then
    match open_read p w with
    | (Ok lines, w') => (parse_lines json_loads lines [], w')
    | (Raise e, w') => (Raise e, w')
    end
  else
    match print ("Error: Metrics file not found at " +:+ p) w with
    | (Ok _, w') => (Ok [], w')
    | (Raise e, w') => (Raise e, w')
    end.
Proof.
  unfold parse_metrics, io_bind, os_path_exists, io_lift, io_ret.
  destruct (path_exists w p); reflexivity.
Qed.

(** The reporter on a present summary: either rendering raises, whatever
    the time, or the output step receives a fixed head, the formatted time
    and a fixed tail. *)
Lemma generate_report_shape stats out :
  (exists e, forall w,
     generate_report float_repr str_repr (Some stats) out w = (Raise e, w)) \/
  (exists head tail, forall w,
     generate_report float_repr str_repr (Some stats) out w
       = emit_document out (head +:+ strftime (clock w) +:+ tail) w).
Proof.
  destruct (render_report_shape stats) as [[e He]|[rest Hrest]].
  - left. exists e. intros w. apply generate_report_unrendered. apply He.
  - right.
    exists ("# Ralph Performance Benchmark Report" +:+ nl +:+ nl +:+ "Generated on: ").
    exists (nl +:+ join nl ((nl +:+ "## Summary Metrics") :: rest)).
    intros w. rewrite (generate_report_emit stats out w _ (Hrest (clock w))).
    f_equal; unfold timestamp_entry; cbn [join]; rewrite ?append_assoc; reflexivity.
Qed.

(** What the output step returns depends on the document only through its
    being encodable. *)
Lemma emit_document_outcome out d1 d2 w1 w2 :
  fs w1 = fs w2 -> locate w1 = locate w2 -> encodable d1 = encodable d2 ->
  fst (emit_document out d1 w1) = fst (emit_document out d2 w2).
Proof.
  intros Hfs Hl He. unfold emit_document, io_bind, open_write, file_write, print.
  destruct out as [[|c p]|]; try (rewrite He; destruct (encodable d2); reflexivity).
  rewrite Hl, Hfs. destruct (locate w2 Write (String c p)) as [name|e]; [|reflexivity].
  destruct (fs w2 !! name) as [[| |]|]; try reflexivity;
    rewrite He; destruct (encodable d2); try reflexivity;
    destruct (encodable ("Report generated at " +:+ String c p)); reflexivity.
Qed.

(** C8: two runs on the same input, started from worlds that differ by the
    clock only, reach the same summary and the same outcome; what they emit
    is the same, or it is one document of which only the formatted time, a
    string without newline, differs. *)
Theorem runs_differ_only_in_timestamp arg_in arg_out w1 w2 :
  fs w1 = fs w2 -> locate w1 = locate w2 -> stdout w1 = stdout w2 ->
  let aggregate := io_bind (parse_metrics json_loads (input_path arg_in))
                           (fun ms => io_lift (calculate_stats ms)) in
  let run := main json_loads float_repr str_repr arg_in arg_out in
  fst (aggregate w1) = fst (aggregate w2) /\
  fst (run w1) = fst (run w2) /\
  ((fs (snd (run w1)) = fs (snd (run w2)) /\ stdout (snd (run w1)) = stdout (snd (run w2))) \/
   (exists head tail,
      run w1 = emit_document arg_out (head +:+ strftime (clock w1) +:+ tail) w1 /\
      run w2 = emit_document arg_out (head +:+ strftime (clock w2) +:+ tail) w2)) /\
  (forall now, has_newline (strftime now) = false).
Proof.
  intros Hfs Hl Hout aggregate run.
  assert (Hex : path_exists w1 (input_path arg_in) = path_exists w2 (input_path arg_in))
    by (unfold path_exists; rewrite Hl, Hfs; reflexivity).
  assert (Hparse : exists r,
    (parse_metrics json_loads (input_path arg_in) w1 = (r, w1) /\
     parse_metrics json_loads (input_path arg_in) w2 = (r, w2)) \/
    (r = Ok [] /\
     parse_metrics json_loads (input_path arg_in) w1
       = (r, printed ("Error: Metrics file not found at " +:+ input_path arg_in) w1) /\
     parse_metrics json_loads (input_path arg_in) w2
       = (r, printed ("Error: Metrics file not found at " +:+ input_path arg_in) w2))).
  { rewrite !parse_metrics_unfold, <- Hex. unfold open_read, print. rewrite <- Hl, <- Hfs.
    destruct (path_exists w1 (input_path arg_in)).
    - destruct (locate w1 Read (input_path arg_in)) as [name|e]; [|eauto].
      destruct (fs w1 !! name) as [[| |]|]; eauto.
    - destruct (encodable _); eauto 10. }
  subst aggregate run. unfold main, io_bind, io_lift. fold (input_path arg_in).
  destruct Hparse as [r [[-> ->]|(-> & -> & ->)]].
  - split; [destruct r; reflexivity|].
    destruct r as [ms|e]; [|split; [reflexivity|split; [left; auto|apply strftime_one_line]]].
    destruct (calculate_stats ms) as [[stats|]|e].
    + destruct (generate_report_shape stats arg_out) as [[e He]|(head & tail & Hdoc)].
      * rewrite !He. split; [reflexivity|]. split; [left; auto|apply strftime_one_line].
      * rewrite !Hdoc. split; [|split; [right; eauto|apply strftime_one_line]].
        apply emit_document_outcome; try assumption.
        rewrite !encodable_around_time. reflexivity.
    + split; [reflexivity|]. split; [|apply strftime_one_line].
      left. simpl. rewrite Hfs, Hout. auto.
    + split; [reflexivity|]. split; [left; auto|apply strftime_one_line].
  - split; [reflexivity|]. split; [reflexivity|]. split; [|apply strftime_one_line].
    left. simpl. rewrite Hfs, Hout. auto.
Qed.

End Pipeline.

(** ** The theorems at work on concrete inputs *)

(** C4, as stated, fails: a line holding a bare number decodes, and the
    number is returned as a record although it is no mapping. *)
Lemma bare_number_is_kept :
  fst (parse_metrics sample_loads "number.json" sample_world) = Ok [VInt 5] /\
  is_mapping (VInt 5) = false.
Proof. split; vm_compute; reflexivity. Qed.

Lemma parse_returns_every_decoded_value_witness :
  VInt 5 ∈ [VInt 5] <->
  exists line, line ∈ readlines ("5" +:+ nl) /\ strip line <> EmptyString /\
               sample_loads (strip line) = Decoded (VInt 5).
Proof.
  apply (parse_returns_every_decoded_value sample_loads "number.json" sample_world
           ("5" +:+ nl) [VInt 5]); vm_compute; reflexivity.
Defined.

(** C5, as stated, fails: the decoding of a line nested 100000 deep fails
    with RecursionError, which is no JSONDecodeError; the line is not
    skipped, the parse raises and returns no sequence. *)
Lemma deeply_nested_line_aborts_parsing :
  text_at deep_world "deep.json" = Some (deep_line +:+ nl) /\
  limited_loads (strip (deep_line +:+ nl)) = DecodeRaises RecursionError /\
  parse_metrics limited_loads "deep.json" deep_world = (Raise RecursionError, deep_world).
Proof. repeat split; vm_compute; reflexivity. Qed.

(** The log with one malformed line followed by one valid line: the parser
    returns the one record, and the summary counts one iteration. *)
Lemma parse_keeps_decodable_lines_in_order_witness :
  parse_metrics sample_loads "metrics.json" sample_world = (Ok [VDict []], sample_world) /\
  exists s, calculate_stats [VDict []] = Ok (Some s) /\ total_iterations s = 1.
Proof.
  destruct (parse_keeps_decodable_lines_in_order sample_loads "metrics.json" sample_world
              ("not json" +:+ nl +:+ "{}" +:+ nl)) as (H1 & _ & H3).
  - vm_compute. reflexivity.
  - repeat constructor.
  - split; [exact H1|]. apply H3.
    + discriminate.
    + vm_compute. reflexivity.
    + repeat constructor.
Defined.

(** C7, as stated, fails: the path "reports" leads to a directory, not to a
    file; it exists, so the parser opens it and the failure of [open]
    escapes. *)
Lemma directory_input_raises :
  fs sample_world !! "reports" = Some Dir /\
  parse_metrics sample_loads "reports" sample_world = (Raise IsADirectoryError, sample_world).
Proof. split; vm_compute; reflexivity. Qed.

Lemma missing_input_is_soft_witness :
  parse_metrics sample_loads "absent.json" sample_world
    = (Ok [], printed "Error: Metrics file not found at absent.json" sample_world) /\
  main sample_loads sample_repr_float sample_repr_str (Some "absent.json") None sample_world
    = (Ok tt, printed "No statistics to report."
                (printed "Error: Metrics file not found at absent.json" sample_world)).
Proof.
  apply (missing_input_is_soft sample_loads sample_repr_float sample_repr_str
           "absent.json" None sample_world); vm_compute; reflexivity.
Defined.

Lemma runs_differ_only_in_timestamp_witness :
  fst (main sample_loads sample_repr_float sample_repr_str (Some "metrics.json") None sample_world)
  = fst (main sample_loads sample_repr_float sample_repr_str (Some "metrics.json") None later_world).
Proof.
  exact (proj1 (proj2 (runs_differ_only_in_timestamp sample_loads sample_repr_float
                         sample_repr_str (Some "metrics.json") None sample_world later_world
                         eq_refl eq_refl eq_refl))).
Defined.



(** The document rendered for the worked example. *)
Lemma report_ab_text :
  join nl report_ab =
  "# Ralph Performance Benchmark Report" +:+ nl +:+ nl +:+
  "Generated on: 2024-05-17 09:30:00" +:+ nl +:+ nl +:+
  "## Summary Metrics" +:+ nl +:+
  "- **Total Iterations:** 2" +:+ nl +:+
  "- **Total Execution Time:** 4.00s" +:+ nl +:+
  "- **Total Tokens (Est):** 30" +:+ nl +:+
  "- **Average Latency/Iteration:** 2.00s" +:+ nl +:+
  "- **Average Tokens/Iteration:** 15.0" +:+ nl +:+
  "- **Max Lazy Streak:** 0" +:+ nl +:+ nl +:+
  "## Utilization" +:+ nl +:+ nl +:+
  "### Tools Used" +:+ nl +:+
  "- a: 1 iterations" +:+ nl +:+
  "- b: 1 iterations" +:+ nl +:+ nl +:+
  "### Models Used" +:+ nl +:+
  "- x: 2 iterations".
Proof. vm_compute. reflexivity. Qed.

(** * Further properties of the aggregator *)

Lemma py_get_int_field k d :
  int_field_ok k (VDict d) = true ->
  (match assoc k d with Some v => v | None => VInt 0 end) = VInt (int_field k (VDict d)).
Proof.
  unfold int_field_ok, int_field. destruct (assoc k d) as [[]|]; try discriminate; reflexivity.
Qed.

Lemma int_field_ok_dict k m :
  int_field_ok k m = true -> exists d, m = VDict d.
Proof. destruct m; try discriminate. eauto. Qed.

Lemma sum_from_ints k ms : forall c,
  Forall (fun m => int_field_ok k m = true) ms ->
  sum_from (fun m => py_get m k (VInt 0)) ms (NInt c)
    = Ok (NInt (c + sum_Z (List.map (int_field k) ms))).
Proof.
  induction ms as [|m ms IH]; intros c Hall.
  - simpl. rewrite Z.add_0_r. reflexivity.
  - inversion Hall as [|? ? Hm Hrest]; subst.
    destruct (int_field_ok_dict k m Hm) as [d ->].
    cbn [sum_from py_get bind]. rewrite (py_get_int_field k d Hm).
    cbn [py_add as_num num_add bind]. rewrite IH by assumption.
    cbn [List.map sum_Z List.fold_right]. fold (sum_Z (List.map (int_field k) ms)).
    rewrite Z.add_assoc. reflexivity.
Qed.

Lemma py_gt_ints a c :
  py_gt (VInt a) (VInt c) = Ok (c <? a).
Proof.
  simpl. rewrite Z.ltb_compare, (Z.compare_antisym a c).
  destruct (a ?= c); reflexivity.
Qed.

Lemma max_from_ints k ms : forall c,
  Forall (fun m => int_field_ok k m = true) ms ->
  max_from (fun m => py_get m k (VInt 0)) ms (VInt c)
    = Ok (VInt (List.fold_left Z.max (List.map (int_field k) ms) c)).
Proof.
  induction ms as [|m ms IH]; intros c Hall.
  - reflexivity.
  - inversion Hall as [|? ? Hm Hrest]; subst.
    destruct (int_field_ok_dict k m Hm) as [d ->].
    cbn [max_from py_get bind]. rewrite (py_get_int_field k d Hm), py_gt_ints.
    cbn [bind List.map List.fold_left].
    replace (if c <? int_field k (VDict d) then VInt (int_field k (VDict d)) else VInt c)
      with (VInt (Z.max c (int_field k (VDict d)))).
    + apply IH. assumption.
    + destruct (Z.ltb_spec c (int_field k (VDict d))); f_equal; lia.
Qed.

Lemma fold_max_spec l : forall c,
  c <= List.fold_left Z.max l c /\
  (forall x, In x l -> x <= List.fold_left Z.max l c) /\
  (List.fold_left Z.max l c = c \/ In (List.fold_left Z.max l c) l).
Proof.
  induction l as [|y l IH]; intros c; simpl.
  - split; [lia|]. split; [intros x []|left; reflexivity].
  - destruct (IH (Z.max c y)) as (H1 & H2 & H3). split; [lia|]. split.
    + intros x [<-|Hx]; [lia|apply H2; assumption].
    + destruct H3 as [H3|H3]; [|right; right; assumption].
      destruct (Z.max_spec c y) as [[_ E]|[_ E]].
      * right. left. lia.
      * left. lia.
Qed.

(** X1: when every lazy_streak is an integer or absent, max_lazy is the
    largest of them, an absent one counting as 0: no record exceeds it and
    some record attains it. *)
Theorem max_lazy_is_the_largest_streak ms s :
  Forall (fun m => int_field_ok "lazy_streak" m = true) ms ->
  calculate_stats ms = Ok (Some s) ->
  exists z, max_lazy s = VInt z /\
    (forall m, In m ms -> int_field "lazy_streak" m <= z) /\
    (exists m, In m ms /\ int_field "lazy_streak" m = z).
Proof.
  intros Hall H. apply calculate_stats_Some in H.
  destruct H as (_ & _ & _ & _ & _ & _ & Hmax & _).
  destruct ms as [|m0 ms]; [discriminate|].
  inversion Hall as [|? ? Hm Hrest]; subst.
  destruct (int_field_ok_dict _ m0 Hm) as [d ->].
  cbn [py_max py_get bind] in Hmax.
  rewrite (py_get_int_field _ d Hm), max_from_ints in Hmax by assumption.
  injection Hmax as <-.
  destruct (fold_max_spec (List.map (int_field "lazy_streak") ms)
              (int_field "lazy_streak" (VDict d))) as (H1 & H2 & H3).
  eexists; split; [reflexivity|]. split.
  - intros m [<-|Hin]; [assumption|]. apply H2. apply in_map. assumption.
  - destruct H3 as [H3|H3].
    + exists (VDict d). split; [left; reflexivity|]. symmetry. assumption.
    + apply in_map_iff in H3. destruct H3 as (m & E & Hin).
      exists m. split; [right; assumption|assumption].
Qed.

Lemma max_lazy_is_the_largest_streak_witness :
  exists z, max_lazy summary_ab = VInt z /\
    (forall m, In m [record_a; record_b] -> int_field "lazy_streak" m <= z) /\
    (exists m, In m [record_a; record_b] /\ int_field "lazy_streak" m = z).
Proof.
  apply (max_lazy_is_the_largest_streak [record_a; record_b] summary_ab).
  - repeat constructor.
  - vm_compute. reflexivity.
Defined.

(** X2: when every tokens field is an integer or absent, total_tokens is the
    integer sum of the fields, an absent one counting as 0. *)
Theorem total_tokens_is_the_sum ms s :
  Forall (fun m => int_field_ok "tokens" m = true) ms ->
  calculate_stats ms = Ok (Some s) ->
  total_tokens s = NInt (sum_Z (List.map (int_field "tokens") ms)).
Proof.
  intros Hall H. apply calculate_stats_Some in H.
  destruct H as (_ & _ & _ & Hsum & _).
  unfold py_sum in Hsum. rewrite sum_from_ints in Hsum by assumption.
  injection Hsum as <-. reflexivity.
Qed.

Lemma total_tokens_is_the_sum_witness :
  total_tokens summary_ab = NInt (sum_Z (List.map (int_field "tokens") [record_a; record_b])).
Proof.
  apply (total_tokens_is_the_sum [record_a; record_b] summary_ab).
  - repeat constructor.
  - vm_compute. reflexivity.
Defined.

(** ** Histograms of names *)

Lemma py_same_str k a : py_same k (VStr a) = true <-> k = VStr a.
Proof.
  destruct k; simpl; try (split; [discriminate|discriminate]).
  rewrite String.eqb_eq. split; congruence.
Qed.

Lemma hist_get_set_str h a b c :
  hist_get (hist_set h (VStr a) c) (VStr b) 0
    = if String.eqb a b then c else hist_get h (VStr b) 0.
Proof.
  induction h as [|[k' c'] h IH].
  - reflexivity.
  - cbn [hist_set]. destruct (py_same k' (VStr a)) eqn:E.
    + apply py_same_str in E. subst k'. cbn [hist_get]. simpl py_same.
      destruct (String.eqb a b); reflexivity.
    + cbn [hist_get]. destruct (py_same k' (VStr b)) eqn:E'.
      * apply py_same_str in E'. subst k'. simpl in E. rewrite String.eqb_sym, E. reflexivity.
      * exact IH.
Qed.

Lemma occurrences_cons name n names :
  occurrences name (n :: names)
    = (if String.eqb n name then 1 else 0) + occurrences name names.
Proof.
  unfold occurrences. cbn [List.filter]. rewrite (String.eqb_sym name n).
  destruct (String.eqb n name); [rewrite length_cons|]; lia.
Qed.

Lemma hist_get_count_names k name ms : forall h,
  hist_get (count_names k ms h) (VStr name) 0
    = hist_get h (VStr name) 0 + occurrences name (List.map (name_field k) ms).
Proof.
  induction ms as [|m ms IH]; intros h.
  - unfold occurrences. simpl. lia.
  - unfold count_names in *. cbn [List.fold_left List.map].
    rewrite IH, hist_get_set_str, occurrences_cons.
    destruct (String.eqb (name_field k m) name) eqn:E; [|lia].
    apply String.eqb_eq in E. rewrite E. lia.
Qed.

Lemma py_get_name_field k d :
  name_field_ok k (VDict d) = true ->
  (match assoc k d with Some v => v | None => VStr "unknown" end)
    = VStr (name_field k (VDict d)).
Proof.
  unfold name_field_ok, name_field. destruct (assoc k d) as [[]|]; try discriminate; reflexivity.
Qed.

Lemma count_loop_names ms : forall t m,
  Forall (fun x => name_field_ok "tool" x = true /\ name_field_ok "model" x = true) ms ->
  count_loop ms t m = Ok (count_names "tool" ms t, count_names "model" ms m).
Proof.
  induction ms as [|x ms IH]; intros t m Hall.
  - reflexivity.
  - inversion Hall as [|? ? [Ht Hm] Hrest]; subst.
    destruct x; try discriminate.
    cbn [count_loop py_get bind].
    rewrite (py_get_name_field "tool" d Ht), (py_get_name_field "model" d Hm).
    unfold hist_incr. cbn [hashable bind]. rewrite IH by assumption. reflexivity.
Qed.

(** X3: when tool and model are strings or absent, the count a histogram
    stores for a name is the number of records carrying that name, a record
    without the field being counted under "unknown"; looking up a name no
    record carries gives 0. *)
Theorem histograms_count_occurrences ms s name :
  Forall (fun x => name_field_ok "tool" x = true /\ name_field_ok "model" x = true) ms ->
  calculate_stats ms = Ok (Some s) ->
  hist_get (tools s) (VStr name) 0 = occurrences name (List.map (name_field "tool") ms) /\
  hist_get (models s) (VStr name) 0 = occurrences name (List.map (name_field "model") ms).
Proof.
  intros Hall H. apply calculate_stats_Some in H.
  destruct H as (_ & _ & _ & _ & _ & _ & _ & Hc).
  rewrite count_loop_names in Hc by assumption. injection Hc as <- <-.
  rewrite !hist_get_count_names. simpl. split; reflexivity.
Qed.

Lemma histograms_count_occurrences_witness :
  hist_get (tools summary_ab) (VStr "a") 0
    = occurrences "a" (List.map (name_field "tool") [record_a; record_b]) /\
  hist_get (models summary_ab) (VStr "a") 0
    = occurrences "a" (List.map (name_field "model") [record_a; record_b]).
Proof.
  apply (histograms_count_occurrences [record_a; record_b] summary_ab "a").
  - repeat constructor.
  - vm_compute. reflexivity.
Defined.

Lemma keys_hist_set_str a c : forall h seen,
  List.map fst h = List.map VStr seen ->
  List.map fst (hist_set h (VStr a) c)
    = List.map VStr (if List.existsb (String.eqb a) seen then seen else seen ++ [a]).
Proof.
  induction h as [|[k' c'] h IH]; intros seen Hk.
  - destruct seen; [reflexivity|discriminate].
  - destruct seen as [|s0 seen]; [discriminate|].
    cbn [List.map fst] in Hk. injection Hk as -> Hk.
    cbn [hist_set List.existsb]. simpl py_same. rewrite (String.eqb_sym a s0).
    destruct (String.eqb s0 a); [cbn [orb List.map fst]; rewrite Hk; reflexivity|].
    cbn [orb List.map fst]. rewrite (IH seen Hk).
    destruct (List.existsb (String.eqb a) seen); reflexivity.
Qed.

Lemma keys_count_names k ms : forall h seen,
  List.map fst h = List.map VStr seen ->
  List.map fst (count_names k ms h)
    = List.map VStr (first_seen_from seen (List.map (name_field k) ms)).
Proof.
  induction ms as [|m ms IH]; intros h seen Hk.
  - exact Hk.
  - unfold count_names, first_seen_from in *. cbn [List.fold_left List.map].
    apply IH. apply keys_hist_set_str. assumption.
Qed.

Lemma first_seen_from_spec names : forall seen,
  NoDup seen ->
  NoDup (first_seen_from seen names) /\
  (forall x, In x (first_seen_from seen names) <-> In x seen \/ In x names).
Proof.
  induction names as [|n names IH]; intros seen Hnd.
  - split; [assumption|]. intros x. simpl. tauto.
  - unfold first_seen_from in *. cbn [List.fold_left].
    destruct (List.existsb (String.eqb n) seen) eqn:E.
    + destruct (IH seen Hnd) as [H1 H2]. split; [assumption|].
      intros x. rewrite H2. simpl. split; [tauto|].
      intros [Hx|[<-|Hx]]; try tauto. left.
      apply List.existsb_exists in E. destruct E as (y & Hy & Ey).
      apply String.eqb_eq in Ey. subst y. assumption.
    + assert (Hn : ~ In n seen).
      { intros Hin. rewrite <- Bool.not_true_iff_false in E. apply E.
        apply List.existsb_exists. exists n. split; [assumption|apply String.eqb_refl]. }
      destruct (IH (seen ++ [n])) as [H1 H2].
      { apply NoDup_app. split; [assumption|]. split.
        - intros x Hx Hx'. apply list_elem_of_In in Hx, Hx'.
          destruct Hx' as [<-|[]]. contradiction.
        - apply NoDup_singleton. }
      split; [assumption|]. intros x. rewrite H2, in_app_iff. simpl. tauto.
Qed.

(** X4: when tool and model are strings or absent, the keys of each histogram
    are the distinct names of the records, each once, in the order in which
    they first occur. *)
Theorem histogram_keys_in_first_seen_order ms s :
  Forall (fun x => name_field_ok "tool" x = true /\ name_field_ok "model" x = true) ms ->
  calculate_stats ms = Ok (Some s) ->
  List.map fst (tools s) = List.map VStr (first_seen (List.map (name_field "tool") ms)) /\
  List.map fst (models s) = List.map VStr (first_seen (List.map (name_field "model") ms)) /\
  NoDup (List.map fst (tools s)) /\ NoDup (List.map fst (models s)).
Proof.
  intros Hall H. apply calculate_stats_Some in H.
  destruct H as (_ & _ & _ & _ & _ & _ & _ & Hc).
  rewrite count_loop_names in Hc by assumption. injection Hc as <- <-.
  assert (Kt := keys_count_names "tool" ms [] [] eq_refl).
  assert (Km := keys_count_names "model" ms [] [] eq_refl).
  fold (first_seen (List.map (name_field "tool") ms)) in Kt.
  fold (first_seen (List.map (name_field "model") ms)) in Km.
  repeat split; try assumption.
  - rewrite Kt. apply NoDup_fmap_2; [intros ? ? [=]; assumption|].
    apply (first_seen_from_spec _ []). constructor.
  - rewrite Km. apply NoDup_fmap_2; [intros ? ? [=]; assumption|].
    apply (first_seen_from_spec _ []). constructor.
Qed.

Lemma histogram_keys_in_first_seen_order_witness :
  List.map fst (tools summary_ab) = [VStr "a"; VStr "b"] /\
  List.map fst (models summary_ab) = [VStr "x"] /\
  NoDup (List.map fst (tools summary_ab)) /\ NoDup (List.map fst (models summary_ab)).
Proof.
  apply (histogram_keys_in_first_seen_order [record_a; record_b] summary_ab).
  - repeat constructor.
  - vm_compute. reflexivity.
Defined.

(** ** Records that are not mappings *)

Lemma sum_from_non_mapping k ms : forall acc,
  (exists m, In m ms /\ is_mapping m = false) ->
  exists e, sum_from (fun m => py_get m k (VInt 0)) ms acc = Raise e.
Proof.
  induction ms as [|m ms IH]; intros acc (bad & Hin & Hbad).
  - destruct Hin.
  - cbn [sum_from]. destruct m; try (simpl; eauto; fail).
    cbn [py_get bind].
    destruct (py_add acc _) as [acc'|e]; [|simpl; eauto].
    cbn [bind]. apply IH. exists bad. split; [|assumption].
    destruct Hin as [<-|Hin]; [discriminate|assumption].
Qed.

(** X5: a record that is not a mapping (a bare number, string, list, ...)
    anywhere in the sequence makes the aggregator raise; when it is the first
    record the exception is the AttributeError of its missing [get]. *)
Theorem non_mapping_record_raises ms :
  (exists m, In m ms /\ is_mapping m = false) ->
  (exists e, calculate_stats ms = Raise e) /\
  (forall m rest, ms = m :: rest -> is_mapping m = false ->
     calculate_stats ms = Raise AttributeError).
Proof.
  intros Hbad. split.
  - destruct ms as [|m0 ms]; [destruct Hbad as (? & [] & _)|].
    destruct (sum_from_non_mapping "latency" (m0 :: ms) (NInt 0) Hbad) as [e He].
    exists e. unfold calculate_stats, py_sum. rewrite He. reflexivity.
  - intros m rest -> Hm. destruct m; try discriminate; reflexivity.
Qed.

Lemma non_mapping_record_raises_witness :
  exists e, calculate_stats [record_a; VInt 5] = Raise e.
Proof.
  apply (non_mapping_record_raises [record_a; VInt 5]).
  exists (VInt 5). split; [right; left; reflexivity|reflexivity].
Defined.

(** ** Stored counts *)

Lemma hist_get_nonneg h k :
  Forall (fun kc => 1 <= snd kc) h -> 0 <= hist_get h k 0.
Proof.
  induction 1 as [|[k' c'] h Hc Hall IH]; simpl in *; [lia|].
  destruct (py_same k' k); lia.
Qed.

Lemma hist_set_pos h k c :
  Forall (fun kc => 1 <= snd kc) h -> 1 <= c ->
  Forall (fun kc : value * Z => 1 <= snd kc) (hist_set h k c).
Proof.
  intros Hall Hc. induction Hall as [|[k' c'] h Hc' Hall IH]; simpl.
  - repeat constructor. assumption.
  - destruct (py_same k' k); constructor; assumption.
Qed.

Lemma hist_incr_pos h k h' :
  Forall (fun kc => 1 <= snd kc) h -> hist_incr h k = Ok h' ->
  Forall (fun kc : value * Z => 1 <= snd kc) h'.
Proof.
  intros Hall. unfold hist_incr. destruct (hashable k); [|discriminate].
  intros [= <-]. apply hist_set_pos; [assumption|].
  pose proof (hist_get_nonneg h k Hall). lia.
Qed.

Lemma count_loop_pos ms : forall t m r,
  Forall (fun kc => 1 <= snd kc) t -> Forall (fun kc => 1 <= snd kc) m ->
  count_loop ms t m = Ok r ->
  Forall (fun kc : value * Z => 1 <= snd kc) (fst r) /\
  Forall (fun kc : value * Z => 1 <= snd kc) (snd r).
Proof.
  induction ms as [|x ms IH]; intros t m r Ht Hm H.
  - simpl in H. injection H as <-. split; assumption.
  - cbn [count_loop] in H. do 4 bind_inv H.
    eapply IH; [| |exact H]; (eapply hist_incr_pos; [|eassumption]; assumption).
Qed.

(** X6: whatever the records, every count stored in the two histograms of a
    returned summary is at least 1: a key is never stored without a record
    that carries it. *)
Theorem stored_counts_are_positive ms s :
  calculate_stats ms = Ok (Some s) ->
  Forall (fun kc : value * Z => 1 <= snd kc) (tools s) /\
  Forall (fun kc : value * Z => 1 <= snd kc) (models s).
Proof.
  intros H. apply calculate_stats_Some in H.
  destruct H as (_ & _ & _ & _ & _ & _ & _ & Hc).
  apply count_loop_pos in Hc; [exact Hc|constructor|constructor].
Qed.

Lemma stored_counts_are_positive_witness :
  Forall (fun kc : value * Z => 1 <= snd kc) (tools summary_ab) /\
  Forall (fun kc : value * Z => 1 <= snd kc) (models summary_ab).
Proof.
  apply (stored_counts_are_positive [record_a; record_b] summary_ab).
  vm_compute. reflexivity.
Defined.

(** ** The order of the records *)

Lemma sum_Z_Permutation l1 l2 : Permutation l1 l2 -> sum_Z l1 = sum_Z l2.
Proof.
  induction 1; simpl in *; lia.
Qed.

Lemma occurrences_Permutation name l1 l2 :
  Permutation l1 l2 -> occurrences name l1 = occurrences name l2.
Proof.
  intros H. unfold occurrences. f_equal.
  induction H; simpl; try destruct (String.eqb name x); try destruct (String.eqb name y);
    simpl; congruence.
Qed.

Lemma max_of_records_unique k (ms1 ms2 : list value) z1 z2 :
  Permutation ms1 ms2 ->
  (forall m, In m ms1 -> int_field k m <= z1) -> (exists m, In m ms1 /\ int_field k m = z1) ->
  (forall m, In m ms2 -> int_field k m <= z2) -> (exists m, In m ms2 /\ int_field k m = z2) ->
  z1 = z2.
Proof.
  intros P U1 (m1 & I1 & E1) U2 (m2 & I2 & E2).
  apply (Permutation_in _ P) in I1. apply (Permutation_in _ (Permutation_sym P)) in I2.
  specialize (U1 _ I2). specialize (U2 _ I1). lia.
Qed.

Lemma plain_record_fields m :
  plain_record m = true ->
  int_field_ok "tokens" m = true /\ int_field_ok "lazy_streak" m = true /\
  name_field_ok "tool" m = true /\ name_field_ok "model" m = true.
Proof.
  unfold plain_record. intros H.
  repeat (apply andb_prop in H; destruct H as [H ?]). auto.
Qed.

(** What a summary of plain records holds, field by field. *)
Lemma calculate_stats_plain ms s :
  Forall (fun m => plain_record m = true) ms ->
  calculate_stats ms = Ok (Some s) ->
  total_iterations s = Z.of_nat (length ms) /\
  total_tokens s = NInt (sum_Z (List.map (int_field "tokens") ms)) /\
  num_truediv (total_tokens s) (NInt (total_iterations s)) = Ok (avg_tokens s) /\
  (exists z, max_lazy s = VInt z /\
     (forall m, In m ms -> int_field "lazy_streak" m <= z) /\
     (exists m, In m ms /\ int_field "lazy_streak" m = z)) /\
  tools s = count_names "tool" ms [] /\
  models s = count_names "model" ms [].
Proof.
  intros Hall H. apply calculate_stats_Some in H.
  destruct H as (Hne & Hn & _ & Hsum & _ & Havg & Hmax & Hc).
  assert (Htok : Forall (fun m => int_field_ok "tokens" m = true) ms).
  { eapply Forall_impl; [exact Hall|]. intros m Hm. apply plain_record_fields in Hm. tauto. }
  assert (Hlazy : Forall (fun m => int_field_ok "lazy_streak" m = true) ms).
  { eapply Forall_impl; [exact Hall|]. intros m Hm. apply plain_record_fields in Hm. tauto. }
  assert (Hnames : Forall (fun x => name_field_ok "tool" x = true /\
                                    name_field_ok "model" x = true) ms).
  { eapply Forall_impl; [exact Hall|]. intros m Hm. apply plain_record_fields in Hm. tauto. }
  split; [assumption|].
  unfold py_sum in Hsum. rewrite sum_from_ints in Hsum by assumption. injection Hsum as Hsum.
  split; [symmetry; assumption|]. split; [assumption|].
  rewrite count_loop_names in Hc by assumption. injection Hc as Ht Hm.
  split; [|split; symmetry; assumption].
  destruct ms as [|m0 ms]; [contradiction|].
  inversion Hlazy as [|? ? Hm0 Hrest]; subst.
  destruct (int_field_ok_dict _ m0 Hm0) as [d ->].
  cbn [py_max py_get bind] in Hmax.
  rewrite (py_get_int_field _ d Hm0), max_from_ints in Hmax by assumption.
  injection Hmax as Hmax.
  destruct (fold_max_spec (List.map (int_field "lazy_streak") ms)
              (int_field "lazy_streak" (VDict d))) as (H1 & H2 & H3).
  eexists; split; [symmetry; exact Hmax|]. split.
  - intros m [<-|Hin]; [assumption|]. apply H2. apply in_map. assumption.
  - destruct H3 as [H3|H3].
    + exists (VDict d). split; [left; reflexivity|]. symmetry. assumption.
    + apply in_map_iff in H3. destruct H3 as (m & E & Hin).
      exists m. split; [right; assumption|assumption].
Qed.

(** X7: on records with integer tokens and lazy_streak and string tool and
    model (each possibly absent), reordering the records changes neither
    total_iterations, total_tokens nor avg_tokens, neither max_lazy nor the
    count stored for any name.  (The order of the histogram keys and a
    floating-point total_latency may change.) *)
Theorem record_order_is_irrelevant ms1 ms2 s1 s2 :
  Permutation ms1 ms2 ->
  Forall (fun m => plain_record m = true) ms1 ->
  calculate_stats ms1 = Ok (Some s1) ->
  calculate_stats ms2 = Ok (Some s2) ->
  total_iterations s1 = total_iterations s2 /\
  total_tokens s1 = total_tokens s2 /\
  avg_tokens s1 = avg_tokens s2 /\
  max_lazy s1 = max_lazy s2 /\
  (forall name,
     hist_get (tools s1) (VStr name) 0 = hist_get (tools s2) (VStr name) 0 /\
     hist_get (models s1) (VStr name) 0 = hist_get (models s2) (VStr name) 0).
Proof.
  intros P Hall1 H1 H2.
  assert (Hall2 : Forall (fun m => plain_record m = true) ms2)
    by (eapply Permutation_Forall; eassumption).
  destruct (calculate_stats_plain ms1 s1 Hall1 H1)
    as (N1 & T1 & A1 & (z1 & M1 & U1 & W1) & Ht1 & Hm1).
  destruct (calculate_stats_plain ms2 s2 Hall2 H2)
    as (N2 & T2 & A2 & (z2 & M2 & U2 & W2) & Ht2 & Hm2).
  assert (EN : total_iterations s1 = total_iterations s2)
    by (rewrite N1, N2, (Permutation_length P); reflexivity).
  assert (ET : total_tokens s1 = total_tokens s2).
  { rewrite T1, T2. f_equal. apply sum_Z_Permutation. apply Permutation_map. assumption. }
  split; [assumption|]. split; [assumption|]. split.
  { rewrite ET, EN in A1. rewrite A1 in A2. injection A2 as A2. assumption. }
  split.
  { rewrite M1, M2. f_equal.
    exact (max_of_records_unique "lazy_streak" ms1 ms2 z1 z2 P U1 W1 U2 W2). }
  intros name. rewrite Ht1, Ht2, Hm1, Hm2, !hist_get_count_names. simpl.
  split; f_equal; apply occurrences_Permutation, Permutation_map; assumption.
Qed.

Lemma record_order_is_irrelevant_witness :
  total_iterations summary_ab = total_iterations summary_ba /\
  total_tokens summary_ab = total_tokens summary_ba /\
  avg_tokens summary_ab = avg_tokens summary_ba /\
  max_lazy summary_ab = max_lazy summary_ba /\
  (forall name,
     hist_get (tools summary_ab) (VStr name) 0 = hist_get (tools summary_ba) (VStr name) 0 /\
     hist_get (models summary_ab) (VStr name) 0 = hist_get (models summary_ba) (VStr name) 0).
Proof.
  apply (record_order_is_irrelevant [record_a; record_b] [record_b; record_a]).
  - apply perm_swap.
  - repeat constructor.
  - vm_compute. reflexivity.
  - vm_compute. reflexivity.
Defined.

(** * Further properties of the parser, the reporter and the pipeline *)

Section PipelineMore.

Variable json_loads : string -> decode_result.
Variable float_repr : spec_float -> string.
Variable str_repr : string -> string.

Lemma parse_lines_skip before line after : forall acc,
  decodable json_loads line = None ->
  decoder_crashes json_loads line = false ->
  parse_lines json_loads (before ++ line :: after) acc
    = parse_lines json_loads (before ++ after) acc.
Proof.
  unfold decodable, decoder_crashes. intros acc Hd Hc. revert acc.
  induction before as [|l before IH]; intros acc.
  - cbn [app parse_lines].
    destruct (is_empty_string (strip line)); [reflexivity|].
    destruct (json_loads (strip line)); [discriminate|reflexivity|discriminate].
  - cbn [app parse_lines].
    destruct (is_empty_string (strip l)); [apply IH|].
    destruct (json_loads (strip l)); [apply IH|apply IH|reflexivity].
Qed.

(** X8: a line that is blank once stripped, or that the decoder rejects,
    leaves no trace: a readable log and the same log with such a line
    inserted anywhere parse to the same result. *)
Theorem undecodable_line_is_ignored p1 p2 w c1 c2 before line after :
  text_at w p1 = Some c1 ->
  text_at w p2 = Some c2 ->
  readlines c1 = before ++ after ->
  readlines c2 = before ++ line :: after ->
  decodable json_loads line = None ->
  decoder_crashes json_loads line = false ->
  parse_metrics json_loads p2 w = parse_metrics json_loads p1 w.
Proof.
  intros H1 H2 L1 L2 Hd Hc.
  rewrite (parse_metrics_text json_loads p1 w c1 H1), (parse_metrics_text json_loads p2 w c2 H2).
  rewrite L1, L2, parse_lines_skip by assumption. reflexivity.
Qed.

Lemma parse_lines_app l1 l2 : forall acc,
  parse_lines json_loads (l1 ++ l2) acc
    = (r <- parse_lines json_loads l1 acc;; parse_lines json_loads l2 r).
Proof.
  induction l1 as [|l l1 IH]; intros acc.
  - reflexivity.
  - cbn [app parse_lines].
    destruct (is_empty_string (strip l)); [apply IH|].
    destruct (json_loads (strip l)); [apply IH|apply IH|reflexivity].
Qed.

Lemma parse_lines_rebase lines : forall acc acc' r,
  parse_lines json_loads lines acc = Ok r ->
  parse_lines json_loads lines acc' = Ok (acc' ++ omap (decodable json_loads) lines).
Proof.
  induction lines as [|l lines IH]; intros acc acc' r H.
  - simpl. rewrite app_nil_r. reflexivity.
  - cbn [parse_lines omap list_omap] in *. unfold decodable at 1.
    destruct (is_empty_string (strip l)); [eapply IH; eassumption|].
    destruct (json_loads (strip l)); [|eapply IH; eassumption|discriminate].
    rewrite (IH _ (acc' ++ [v]) _ H), <- app_assoc. reflexivity.
Qed.

Lemma readlines_CR s :
  readlines (String "013" s)
    = nl :: readlines (match s with
                       | String c s' => if Ascii.eqb c "010" then s' else s
                       | EmptyString => s
                       end).
Proof.
  destruct s as [|c s']; [reflexivity|].
  change (readlines (String "013" (String c s')))
    with (if Ascii.eqb c "010" then nl :: readlines s' else nl :: readlines (String c s')).
  destruct (Ascii.eqb c "010"); reflexivity.
Qed.

Lemma readlines_nonempty c s : readlines (String c s) <> [].
Proof.
  cbn [readlines]. destruct (Ascii.eqb c "010"); [discriminate|].
  destruct (Ascii.eqb c "013").
  - destruct s as [|c' s']; [discriminate|]. destruct (Ascii.eqb c' "010"); discriminate.
  - destruct (readlines s); discriminate.
Qed.

Lemma append_nl_cons a : exists c s, a +:+ nl = String c s.
Proof. destruct a; simpl; eauto. Qed.

(** A text that ends a line splits into lines independently of what
    follows it. *)
Lemma readlines_app_nl n : forall a b,
  (String.length a <= n)%nat ->
  readlines ((a +:+ nl) +:+ b) = readlines (a +:+ nl) ++ readlines b.
Proof.
  induction n as [|n IH]; intros a b Hlen.
  - destruct a; [reflexivity|simpl in Hlen; lia].
  - destruct a as [|c a]; [reflexivity|]. simpl in Hlen.
    change ((String c a +:+ nl) +:+ b) with (String c ((a +:+ nl) +:+ b)).
    change (String c a +:+ nl) with (String c (a +:+ nl)).
    destruct (Ascii.eqb c "010") eqn:Elf.
    + cbn [readlines]. rewrite Elf. rewrite IH by lia. reflexivity.
    + destruct (Ascii.eqb c "013") eqn:Ecr.
      * apply Ascii.eqb_eq in Ecr. subst c. rewrite !readlines_CR.
        destruct a as [|c' a']; [reflexivity|].
        change ((String c' a' +:+ nl) +:+ b) with (String c' ((a' +:+ nl) +:+ b)).
        change (String c' a' +:+ nl) with (String c' (a' +:+ nl)).
        cbv beta iota. destruct (Ascii.eqb c' "010").
        -- simpl in Hlen. rewrite IH by lia. reflexivity.
        -- change (String c' ((a' +:+ nl) +:+ b)) with ((String c' a' +:+ nl) +:+ b).
           change (String c' (a' +:+ nl)) with (String c' a' +:+ nl).
           rewrite IH by lia. reflexivity.
      * cbn [readlines]. rewrite Elf, Ecr. rewrite IH by lia.
        destruct (append_nl_cons a) as (c' & s' & E). rewrite E.
        pose proof (readlines_nonempty c' s') as Hne.
        destruct (readlines (String c' s')); [contradiction|reflexivity].
Qed.

(** X9: appending a second log to a log that ends with a newline appends
    its records: when both logs parse, the concatenated file parses to the
    records of the first followed by those of the second. *)
Theorem appended_log_appends_records p1 p2 p12 w c1 c2 (r1 r2 : list value) :
  text_at w p1 = Some (c1 +:+ nl) ->
  text_at w p2 = Some c2 ->
  text_at w p12 = Some ((c1 +:+ nl) +:+ c2) ->
  fst (parse_metrics json_loads p1 w) = Ok r1 ->
  fst (parse_metrics json_loads p2 w) = Ok r2 ->
  parse_metrics json_loads p12 w = (Ok (r1 ++ r2), w).
Proof.
  intros H1 H2 H12.
  rewrite (parse_metrics_text json_loads p1 w _ H1), (parse_metrics_text json_loads p2 w _ H2),
    (parse_metrics_text json_loads p12 w _ H12). cbn [fst].
  intros P1 P2. rewrite (readlines_app_nl (String.length c1)) by lia.
  rewrite parse_lines_app, P1. cbn [bind].
  rewrite (parse_lines_rebase _ _ r1 _ P2).
  apply parse_lines_Ok in P2. simpl in P2. subst r2. reflexivity.
Qed.

Lemma parse_lines_crash before line after e : forall acc,
  Forall (fun l => decoder_crashes json_loads l = false) before ->
  strip line <> EmptyString ->
  json_loads (strip line) = DecodeRaises e ->
  parse_lines json_loads (before ++ line :: after) acc = Raise e.
Proof.
  intros acc Hall Hne He. rewrite parse_lines_app.
  rewrite (parse_lines_spec json_loads before acc Hall). cbn [bind parse_lines].
  destruct (strip line); [contradiction|]. cbn [is_empty_string]. rewrite He. reflexivity.
Qed.

(** X10: only JSONDecodeError is caught: the first line on which the decoder
    raises anything else aborts the parse with that exception, the records
    decoded before it are lost, and nothing is printed. *)
Theorem decoder_crash_aborts_parsing p w content before line after e :
  text_at w p = Some content ->
  readlines content = before ++ line :: after ->
  Forall (fun l => decoder_crashes json_loads l = false) before ->
  strip line <> EmptyString ->
  json_loads (strip line) = DecodeRaises e ->
  parse_metrics json_loads p w = (Raise e, w).
Proof.
  intros Hp Hl Hall Hne He. rewrite (parse_metrics_text json_loads p w content Hp), Hl.
  rewrite (parse_lines_crash before line after e [] Hall Hne He). reflexivity.
Qed.



(** X16: a document that cannot be encoded still costs the previous report:
    the output file is opened, hence emptied, before the text is encoded, and
    the run raises UnicodeEncodeError with the file left empty. *)
Theorem unencodable_document_empties_the_output stats w report p name :
  render_report float_repr str_repr stats (clock w) = Ok report ->
  encodable (join nl report) = false ->
  p <> EmptyString -> locate w Write p = Ok name -> fs w !! name <> Some Dir ->
  generate_report float_repr str_repr (Some stats) (Some p) w
    = (Raise UnicodeEncodeError, written name EmptyString w).
Proof.
  intros Hr He Hne Hl Hd. rewrite (generate_report_emit float_repr str_repr stats _ w report Hr).
  destruct p as [|c p]; [contradiction|].
  unfold emit_document, io_bind, open_write, file_write. rewrite Hl.
  destruct (fs w !! name) as [[| |]|]; try contradiction; rewrite He; reflexivity.
Qed.

Lemma emit_document_frame out text w name :
  (forall p, out = Some p -> locate w Write p <> Ok name) ->
  fs (snd (emit_document out text w)) !! name = fs w !! name.
Proof.
  intros Hq. unfold emit_document, io_bind, open_write, file_write, print.
  destruct out as [[|c p]|]; try (destruct (encodable text); reflexivity).
  specialize (Hq _ eq_refl).
  destruct (locate w Write (String c p)) as [name'|e]; [|reflexivity].
  assert (Hne : name' <> name) by congruence.
  destruct (fs w !! name') as [[| |]|]; try reflexivity;
    destruct (encodable text); try destruct (encodable ("Report generated at " +:+ String c p));
    simpl; rewrite ?lookup_insert_ne by assumption; reflexivity.
Qed.

Lemma generate_report_frame stats out w name :
  (forall p, out = Some p -> locate w Write p <> Ok name) ->
  fs (snd (generate_report float_repr str_repr stats out w)) !! name = fs w !! name.
Proof.
  intros Hq. destruct stats as [stats|]; [|reflexivity].
  destruct (render_report float_repr str_repr stats (clock w)) as [report|e] eqn:Hr.
  - rewrite (generate_report_emit float_repr str_repr stats out w report Hr).
    apply emit_document_frame. assumption.
  - rewrite (generate_report_unrendered float_repr str_repr stats out w e Hr). reflexivity.
Qed.

(** X12: the pipeline changes no entry of the file system but the one the
    output path leads to, whatever happens: every other entry holds after the
    run what it held before, the input log included unless the output path
    leads to it; without an output option nothing is written at all. *)
Theorem pipeline_writes_only_the_output arg_in arg_out w name :
  (forall p, arg_out = Some p -> locate w Write p <> Ok name) ->
  fs (snd (main json_loads float_repr str_repr arg_in arg_out w)) !! name = fs w !! name.
Proof.
  intros Hq. unfold main, io_bind, io_lift. fold (input_path arg_in).
  rewrite parse_metrics_unfold. unfold open_read, print.
  destruct (path_exists w (input_path arg_in)).
  - destruct (locate w Read (input_path arg_in)) as [n|e]; [|reflexivity].
    destruct (fs w !! n) as [[content| |]|]; try reflexivity.
    destruct (parse_lines json_loads (readlines content) []) as [ms|e]; [|reflexivity].
    destruct (calculate_stats ms) as [stats|e]; [|reflexivity].
    apply generate_report_frame. assumption.
  - destruct (encodable _); reflexivity.
Qed.

(** X13: a log that exists but holds no record (empty, or made of blank and
    rejected lines only) is a soft condition: the pipeline prints that there
    is nothing to report, and nothing else, whatever the output option. *)
Theorem log_without_records_reports_nothing p out w content :
  text_at w p = Some content ->
  Forall (fun l => decodable json_loads l = None /\ decoder_crashes json_loads l = false)
         (readlines content) ->
  main json_loads float_repr str_repr (Some p) out w
    = (Ok tt, printed "No statistics to report." w).
Proof.
  intros Hp Hall. unfold main, io_bind, io_lift.
  rewrite (parse_metrics_file json_loads p w content Hp).
  - assert (E : omap (decodable json_loads) (readlines content) = []).
    { induction Hall as [|l ls [Hd _] _ IH]; [reflexivity|].
      cbn [omap list_omap]. rewrite Hd. exact IH. }
    rewrite E. reflexivity.
  - eapply Forall_impl; [exact Hall|]. intros l [_ H]. exact H.
Qed.






End PipelineMore.

(** ** The further theorems at work on concrete inputs *)

Lemma undecodable_line_is_ignored_witness :
  parse_metrics sample_loads "noisy.json" log_world
    = parse_metrics sample_loads "a.json" log_world.
Proof.
  apply (undecodable_line_is_ignored sample_loads "a.json" "noisy.json" log_world
           ("{}" +:+ nl +:+ "5" +:+ nl)
           ("{}" +:+ nl +:+ "not json" +:+ nl +:+ "5" +:+ nl)
           ["{}" +:+ nl] ("not json" +:+ nl) ["5" +:+ nl]); vm_compute; reflexivity.
Defined.

Lemma appended_log_appends_records_witness :
  parse_metrics sample_loads "ab.json" log_world
    = (Ok ([VDict []; VInt 5] ++ [VList []]), log_world).
Proof.
  apply (appended_log_appends_records sample_loads "a.json" "b.json" "ab.json" log_world
           ("{}" +:+ nl +:+ "5") ("[]" +:+ nl)); vm_compute; reflexivity.
Defined.

Lemma decoder_crash_aborts_parsing_witness :
  parse_metrics crashing_loads "deep.json" log_world
    = (Raise RecursionError, log_world).
Proof.
  apply (decoder_crash_aborts_parsing crashing_loads "deep.json" log_world
           ("{}" +:+ nl +:+ "deep" +:+ nl +:+ "{}" +:+ nl)
           ["{}" +:+ nl] ("deep" +:+ nl) ["{}" +:+ nl]).
  - vm_compute. reflexivity.
  - vm_compute. reflexivity.
  - repeat constructor.
  - vm_compute. discriminate.
  - vm_compute. reflexivity.
Defined.


Lemma unencodable_document_empties_the_output_witness :
  generate_report sample_repr_float sample_repr_str (Some surrogate_summary)
    (Some "old.md") log_world
  = (Raise UnicodeEncodeError, written "old.md" EmptyString log_world).
Proof.
  apply (unencodable_document_empties_the_output sample_repr_float sample_repr_str
           surrogate_summary log_world surrogate_report "old.md" "old.md").
  - vm_compute. reflexivity.
  - vm_compute. reflexivity.
  - discriminate.
  - vm_compute. reflexivity.
  - vm_compute. discriminate.
Defined.

Lemma pipeline_writes_only_the_output_witness :
  fs (snd (main sample_loads sample_repr_float sample_repr_str
             (Some "records.json") (Some "records.md") log_world)) !! "records.json"
  = fs log_world !! "records.json".
Proof.
  apply (pipeline_writes_only_the_output sample_loads sample_repr_float sample_repr_str
           (Some "records.json") (Some "records.md") log_world "records.json").
  intros p [= <-]. vm_compute. discriminate.
Defined.

Lemma log_without_records_reports_nothing_witness :
  main sample_loads sample_repr_float sample_repr_str (Some "quiet.json") None log_world
    = (Ok tt, printed "No statistics to report." log_world).
Proof.
  apply (log_without_records_reports_nothing sample_loads sample_repr_float sample_repr_str
           "quiet.json" None log_world (nl +:+ "  " +:+ nl +:+ "not json" +:+ nl)).
  - vm_compute. reflexivity.
  - repeat constructor.
Defined.


